(** * Download-page generators of amo-cli

    A shallow embedding of the two scripts
    [.github/scripts/generate-download-page.py] (module [En]) and
    [.github/scripts/generate-download-page-zh.py] (module [Zh]),
    together with the Python primitives they call (module [Py]) and a
    model of the file system and of process effects the scripts see. *)

From Stdlib Require Import List ZArith NArith Bool Lia Ascii String.
From Stdlib Require Import Numbers.DecimalString.
Import ListNotations.

Set Implicit Arguments.
Local Open Scope list_scope.

(** ** Python primitives *)

Module Py.

(** A Python [str] is a sequence of Unicode code points. *)
Definition str := list N.

(** Literals are written as Rocq strings (whose characters are the bytes
    of the UTF-8 encoding) and decoded to code points by [py]. *)
Fixpoint utf8 (pending : nat) (acc : N) (bs : list N) : str :=
  match bs with
  | [] => []
  | b :: bs' =>
    match pending with
    | O =>
      if (b <? 128)%N then b :: utf8 0 0%N bs'
      else if (b <? 224)%N then utf8 1 (b - 192)%N bs'
      else if (b <? 240)%N then utf8 2 (b - 224)%N bs'
      else utf8 3 (b - 240)%N bs'
    | S k =>
      let acc' := (acc * 64 + (b - 128))%N in
      match k with
      | O => acc' :: utf8 0 0%N bs'
      | S _ => utf8 k acc' bs'
      end
    end
  end.

Definition py (s : string) : str :=
  utf8 0 0%N (map N_of_ascii (list_ascii_of_string s)).
Arguments py s%_string.

(** The double quote and the line feed. *)
Definition dq : str := [34%N].
Definition nl : str := [10%N].

(** [s.startswith(p)] *)
Fixpoint startswith (p s : str) : bool :=
  match p, s with
  | [], _ => true
  | _ :: _, [] => false
  | a :: p', b :: s' => (a =? b)%N && startswith p' s'
  end.

(** [sub in s] *)
Fixpoint contains (sub s : str) : bool :=
  startswith sub s ||
  match s with
  | [] => false
  | _ :: s' => contains sub s'
  end.

(** [s.endswith(suf)] *)
Definition endswith (suf s : str) : bool :=
  startswith (rev suf) (rev s).

(** [s.replace(old, new)] for a non-empty [old]: the occurrences of [old]
    are found from left to right and do not overlap.  [skip] counts the
    characters of an occurrence that are still to be passed over. *)
Fixpoint replace_from (skip : nat) (old new s : str) : str :=
  match s with
  | [] => []
  | c :: s' =>
    match skip with
    | S k => replace_from k old new s'
    | O =>
      if startswith old s
      then new ++ replace_from (List.length old - 1) old new s'
      else c :: replace_from 0 old new s'
    end
  end.

Definition replace (old new s : str) : str := replace_from 0 old new s.

(** The number of non-overlapping occurrences, [s.count(sub)]. *)
Fixpoint count_from (skip : nat) (sub s : str) : nat :=
  match s with
  | [] => 0
  | _ :: s' =>
    match skip with
    | S k => count_from k sub s'
    | O =>
      if startswith sub s
      then S (count_from (List.length sub - 1) sub s')
      else count_from 0 sub s'
    end
  end.

Definition count (sub s : str) : nat := count_from 0 sub s.

(** Values a function of the scripts can hand back: [None] or a [str]. *)
Inductive value := PyNone | PyStr (s : str).

(** [f"{v}"] *)
Definition fmt (v : value) : str :=
  match v with
  | PyNone => py "None"
  | PyStr s => s
  end.

(** *** Numbers and their formatting *)

(** A Python [float] (an IEEE double) is modelled by the dyadic rational
    [mant / 2 ^ expo] that it denotes exactly. *)
Record float := { mant : Z; expo : Z }.

Inductive num := PyInt (n : Z) | PyFloat (x : float).

(** [a / b] rounded to the nearest integer, ties to the even one ([0 < b]). *)
Definition round_half_even (a b : Z) : Z :=
  let q := (a / b)%Z in
  let r := (a mod b)%Z in
  if (2 * r <? b)%Z then q
  else if (b <? 2 * r)%Z then (q + 1)%Z
  else if Z.even q then q else (q + 1)%Z.

(** [n] with its 53 leading bits kept, rounded to nearest even. *)
Definition rn53 (n : Z) : Z :=
  let e := (Z.log2 (Z.abs n) - 52)%Z in
  if (e <=? 0)%Z then n else (round_half_even n (2 ^ e) * 2 ^ e)%Z.

(** [float(n)]; [None] is the [OverflowError] of an integer beyond the
    range of a double. *)
Definition float_of_int (n : Z) : option float :=
  let v := rn53 n in
  if (2 ^ 1024 <=? Z.abs v)%Z then None
  else Some {| mant := v; expo := 0 |}.

(** [size < 1024.0]: Python compares an [int] with a [float] exactly. *)
Definition lt_1024 (size : num) : bool :=
  match size with
  | PyInt n => (n <? 1024)%Z
  | PyFloat x => (mant x <? 1024 * 2 ^ expo x)%Z
  end.

(** [size / 1024.0]: an [int] is first converted to a [float]; dividing a
    double by [2 ^ 10] lowers its exponent and is exact (the quotients of
    the scripts stay far above the subnormal range). *)
Definition div_1024 (size : num) : option num :=
  match size with
  | PyInt n =>
    match float_of_int n with
    | Some x => Some (PyFloat {| mant := mant x; expo := (expo x + 10)%Z |})
    | None => None
    end
  | PyFloat x => Some (PyFloat {| mant := mant x; expo := (expo x + 10)%Z |})
  end.

(** The decimal digits of a non-negative integer. *)
Definition digits (n : Z) : str :=
  map N_of_ascii
    (list_ascii_of_string (NilZero.string_of_uint (N.to_uint (Z.to_N n)))).

(** The value of [x] in tenths, rounded as [format(x, '.1f')] rounds: to
    the nearest tenth of the exact value, ties to even. *)
Definition tenths (x : float) : Z :=
  round_half_even (10 * mant x) (2 ^ expo x).

Definition fixed1 (x : float) : str :=
  let t := Z.abs (tenths x) in
  (if (mant x <? 0)%Z then py "-" else []) ++
  digits (t / 10) ++ py "." ++ digits (t mod 10).

(** [f"{size:.1f}"]; an [int] is converted to a [float] first. *)
Definition to_float (size : num) : option float :=
  match size with
  | PyInt n => float_of_int n
  | PyFloat x => Some x
  end.

Definition format_1f (size : num) : option str :=
  option_map fixed1 (to_float size).

(** *** Whitespace, [strip], [split] and paths *)

(** [c.isspace()] for one code point. *)
Definition isspace (c : N) : bool :=
  ((9 <=? c) && (c <=? 13) || (28 <=? c) && (c <=? 32) ||
   (c =? 133) || (c =? 160) || (c =? 5760) ||
   (8192 <=? c) && (c <=? 8202) || (c =? 8232) || (c =? 8233) ||
   (c =? 8239) || (c =? 8287) || (c =? 12288))%N.

Fixpoint lstrip (s : str) : str :=
  match s with
  | [] => []
  | c :: s' => if isspace c then lstrip s' else s
  end.

(** [s.strip()] *)
Definition strip (s : str) : str := rev (lstrip (rev (lstrip s))).

(** [s.split()]: the maximal runs of non-whitespace characters.  [cur] is
    the run being read, last character first. *)
Fixpoint split_from (cur : str) (s : str) : list str :=
  match s with
  | [] => match cur with [] => [] | _ :: _ => [rev cur] end
  | c :: s' =>
    if isspace c then
      match cur with
      | [] => split_from [] s'
      | _ :: _ => rev cur :: split_from [] s'
      end
    else split_from (c :: cur) s'
  end.

Definition split (s : str) : list str := split_from [] s.

(** [os.path.basename(p)]: what follows the last slash. *)
Fixpoint basename_from (cur : str) (p : str) : str :=
  match p with
  | [] => rev cur
  | c :: p' => if (c =? 47)%N then basename_from [] p'
               else basename_from (c :: cur) p'
  end.

Definition basename (p : str) : str := basename_from [] p.

(** [fnmatch.fnmatch(name, pat)] on a POSIX system, for patterns made of
    literal characters, [*] and [?]. *)
Fixpoint fnmatch (pat : str) : str -> bool :=
  match pat with
  | [] => fun name => match name with [] => true | _ :: _ => false end
  | p :: pat' =>
    if (p =? 42)%N then
      fix star (name : str) : bool :=
        fnmatch pat' name ||
        match name with
        | [] => false
        | _ :: name' => star name'
        end
    else
      fun name =>
        match name with
        | [] => false
        | c :: name' => ((p =? 63) || (p =? c))%N && fnmatch pat' name'
        end
  end.

End Py.

Import Py.

(** ** The file system and the effects of a run *)

Module Os.

Inductive exn :=
| FileNotFoundError | PermissionError | IsADirectoryError | FileExistsError
| UnicodeError | OSError | IndexError | OverflowError.

Inductive kind := Regular | Directory | Special.

Record stat := { st_kind : kind; st_size : Z }.

(** The [encoding] argument of [open]: absent (the locale's preferred
    encoding is used) or ['utf-8']. *)
Inductive encoding := LocaleDefault | Utf8.

(** How [with open(path, 'w', ...) as f: f.write(content)] ends.  [open]
    creates the file or empties it before anything is written, so a
    failure after it leaves the file behind, empty or with a part of the
    content. *)
Inductive write_result :=
| Written
| NotOpened (e : exn)
| Broken (kept : str) (e : exn).

(** What the operating system answers to the calls of one run.  The
    scripts read and inspect files only before they write, so one answer
    per path describes a run. *)
Record world := {
  (** the names in the current directory, in the order [os.scandir] yields
      them *)
  w_listing : list str;
  (** [os.stat(path)], [None] when it raises *)
  w_stat : str -> option stat;
  (** [open(path, 'r', encoding=...).read()] *)
  w_read : encoding -> str -> str + exn;
  (** [with open(path, 'w', encoding=...) as f: f.write(content)] *)
  w_write : encoding -> str -> str -> write_result;
  (** [os.mkdir(path)], [None] on success *)
  w_mkdir : str -> option exn;
  (** [str(Path(__file__).parent / name)] *)
  w_src_path : str -> str;
  (** [(Path(__file__).parent / name).exists()] *)
  w_src_exists : str -> bool;
  (** [shutil.copy2(Path(__file__).parent / name, name)], [None] on
      success *)
  w_copy2 : str -> option exn
}.

(** [os.path.isfile(path)] *)
Definition isfile (w : world) (path : str) : bool :=
  match w_stat w path with
  | Some {| st_kind := Regular |} => true
  | _ => false
  end.

(** [Path(path).is_dir()] *)
Definition is_dir (w : world) (path : str) : bool :=
  match w_stat w path with
  | Some {| st_kind := Directory |} => true
  | _ => false
  end.

(** [os.path.getsize(path)], [None] when it raises *)
Definition getsize (w : world) (path : str) : option Z :=
  option_map st_size (w_stat w path).

(** [glob.glob(pattern)] for a pattern without a directory part: the
    names of the current directory that match, in listing order; names
    with a leading dot only match a pattern with a leading dot. *)
Definition ishidden (name : str) : bool := startswith (py ".") name.

Definition glob (w : world) (pattern : str) : list str :=
  let names :=
    if ishidden pattern then w_listing w
    else filter (fun x => negb (ishidden x)) (w_listing w) in
  filter (fnmatch pattern) names.

(** The effects of a run that are observable from outside. *)
Inductive event :=
| Print (msg : str)
| MkDir (path : str)
| WriteFile (path content : str)
| Copy2 (src dst : str).

(** How a computation ends: with a value, with an exception, or with
    [sys.exit(code)]. *)
Inductive result (A : Type) :=
| Ret (a : A)
| Raise (e : exn)
| SysExit (code : Z).
Arguments Ret {A} a.
Arguments Raise {A} e.
Arguments SysExit {A} code.

(** A computation: the events it performed, and how it ended. *)
Definition prog (A : Type) : Type := list event * result A.

Definition ret {A} (a : A) : prog A := ([], Ret a).

Definition bind {A B} (m : prog A) (k : A -> prog B) : prog B :=
  match m with
  | (t, Ret a) => let (t', r) := k a in (t ++ t', r)
  | (t, Raise e) => (t, Raise e)
  | (t, SysExit c) => (t, SysExit c)
  end.

(** [print(msg)]; writing to the standard output is taken to succeed. *)
Definition print (msg : str) : prog unit := ([Print msg], Ret tt).
Definition raise {A} (e : exn) : prog A := ([], Raise e).
Definition sys_exit {A} (code : Z) : prog A := ([], SysExit code).

(** The file [path] is opened for writing and [content] written to it.
    The event [WriteFile path text] tells that the file is left holding
    [text]: the content when all went well, what was left when the
    writing broke off; there is no event when the file could not be
    opened. *)
Definition write (w : world) (enc : encoding) (path content : str)
  : prog unit :=
  match w_write w enc path content with
  | Written => ([WriteFile path content], Ret tt)
  | NotOpened e => raise e
  | Broken kept e => ([WriteFile path kept], Raise e)
  end.

(** [Path(path).mkdir(exist_ok=True)]: an [OSError] of [os.mkdir] is
    swallowed when the path is a directory. *)
Definition mkdir_exist_ok (w : world) (path : str) : prog unit :=
  match w_mkdir w path with
  | None => ([MkDir path], Ret tt)
  | Some e => if is_dir w path then ret tt else raise e
  end.

Definition copy2 (w : world) (name : str) : prog unit :=
  match w_copy2 w name with
  | None => ([Copy2 (w_src_path w name) name], Ret tt)
  | Some e => raise e
  end.

(** The exit status of the process when [main()] ends with [r]: an
    uncaught exception prints a traceback and gives status 1. *)
Definition exit_code (r : result unit) : Z :=
  match r with
  | Ret _ => 0
  | Raise _ => 1
  | SysExit c => c
  end.

End Os.

Import Os.

Notation "x <- m ;; k" := (bind m (fun x => k))
  (at level 61, m at next level, right associativity).
Notation "m ;;; k" := (bind m (fun _ => k))
  (at level 61, right associativity).

(** ** The default-locale script *)

Module En.

Definition units : list str := [py "B"; py "KB"; py "MB"; py "GB"].

(** The [for] loop of [get_file_size] and the statement after it: the
    scaled size and the unit of the [return] that is reached; [None] when
    the division raises. *)
Fixpoint scale (size : num) (us : list str) : option (num * str) :=
  match us with
  | [] => Some (size, py "TB")
  | unit :: rest =>
    if lt_1024 size then Some (size, unit)
    else
      match div_1024 size with
      | Some size' => scale size' rest
      | None => None
      end
  end.

(** The body of the [try] of [get_file_size] once [os.path.getsize] has
    handed back [size]; [None] when an exception is raised. *)
Definition get_file_size_of (size : Z) : option str :=
  match scale (PyInt size) units with
  | Some (size', unit) =>
    match format_1f size' with
    | Some s => Some (s ++ unit)
    | None => None
    end
  | None => None
  end.

(** The [if]/[elif] chain of [get_arch_info]: [Some v] when a [return v] is
    executed inside it, [None] when control leaves the chain without one. *)
Definition arch_chain (filename : str) : option value :=
  if contains (py "amd64") filename then
    if contains (py "linux") filename then Some (PyStr (py "64-bit"))
    else if contains (py "darwin") filename then Some (PyStr (py "Intel"))
    else if contains (py "windows") filename then Some (PyStr (py "64-bit"))
    else None
  else if contains (py "arm64") filename then
    if contains (py "linux") filename then Some (PyStr (py "ARM64"))
    else if contains (py "darwin") filename then
      Some (PyStr (py "Apple Silicon"))
    else None
  else if contains (py "armv7") filename then Some (PyStr (py "ARMv7"))
  else None.

Definition get_arch_info (filename : str) : value :=
  match arch_chain filename with
  | Some v => v
  | None => PyStr (py "Unknown")
  end.

Definition get_file_size (w : world) (filepath : str) : str :=
  match getsize w filepath with
  | Some size =>
    match get_file_size_of size with
    | Some s => s
    | None => py "Unknown"
    end
  | None => py "Unknown"
  end.

(** The three template strings of [generate_platform_section]. *)
Definition card_open (platform_name platform_icon : str) : str :=
  py "                <div class=" ++ dq ++ py "platform-card" ++ dq ++
  py ">" ++ nl ++
  py "                    <h3><span class=" ++ dq ++ py "platform-icon" ++
  dq ++ py ">" ++ platform_icon ++ py "</span>" ++ platform_name ++
  py "</h3>".

Definition card_item (filename : str) (arch_info : value) (filesize : str)
  : str :=
  nl ++ py "                    <a href=" ++ dq ++ filename ++ dq ++
  py " class=" ++ dq ++ py "download-link" ++ dq ++ py ">" ++ filename ++
  py "</a>" ++ nl ++
  py "                    <div class=" ++ dq ++ py "file-info" ++ dq ++
  py ">" ++ fmt arch_info ++ py " • " ++ filesize ++ py "</div>".

Definition card_close : str :=
  nl ++ py "                </div>".

Definition generate_platform_section (w : world)
  (platform_name platform_icon file_pattern : str) : str :=
  let files := glob w file_pattern in
  let files :=
    filter (fun f => negb (endswith (py ".sha256") f) && isfile w f) files in
  match files with
  | [] => []
  | _ :: _ =>
    let section := card_open platform_name platform_icon in
    let section :=
      fold_left
        (fun section filepath =>
           let filename := basename filepath in
           let filesize := get_file_size w filepath in
           let arch_info := get_arch_info filename in
           section ++ card_item filename arch_info filesize)
        files section in
    section ++ card_close
  end.

(** [f.read().strip().split()[0]] on the file [sha_file]; [None] when one
    of the steps raises. *)
Definition read_checksum (w : world) (sha_file : str) : option str :=
  match w_read w LocaleDefault sha_file with
  | inl text =>
    match split (strip text) with
    | checksum :: _ => Some checksum
    | [] => None
    end
  | inr _ => None
  end.

Definition checksum_item (binary_name checksum : str) : str :=
  nl ++ py "                <div class=" ++ dq ++ py "checksum-item" ++ dq ++
  py ">" ++ nl ++
  py "                    <div class=" ++ dq ++ py "checksum-filename" ++
  dq ++ py ">" ++ binary_name ++ py "</div>" ++ nl ++
  py "                    <div class=" ++ dq ++ py "checksum-hash" ++ dq ++
  py ">" ++ checksum ++ py "</div>" ++ nl ++
  py "                </div>".

Definition generate_checksums_section (w : world) : str :=
  let sha_files := glob w (py "*.sha256") in
  match sha_files with
  | [] => []
  | _ :: _ =>
    fold_left
      (fun checksums sha_file =>
         let binary_name := replace (py ".sha256") [] sha_file in
         if isfile w binary_name then
           match read_checksum w sha_file with
           | Some checksum =>
             checksums ++ checksum_item binary_name checksum
           | None => checksums
           end
         else checksums)
      sha_files []
  end.

Definition scripts : list (str * str) :=
  [ (py "install.sh", py "Unix/Linux/macOS installation script");
    (py "install.ps1", py "Windows PowerShell installation script");
    (py "install.bat", py "Windows Batch installation script") ].

Fixpoint copy_scripts (w : world) (l : list (str * str)) : prog unit :=
  match l with
  | [] => ret tt
  | (script_name, description) :: rest =>
    (if w_src_exists w script_name then
       copy2 w script_name ;;;
       print (py "✅ Copied " ++ script_name ++ py " (" ++ description ++
              py ")")
     else
       print (py "⚠️ Warning: " ++ script_name ++ py " not found at " ++
              w_src_path w script_name)) ;;;
    copy_scripts w rest
  end.

Definition copy_installation_scripts (w : world) : prog unit :=
  copy_scripts w scripts.

(** The four replacements of [main]. *)
Definition render (content tag_name release_name download_sections
  checksums : str) : str :=
  let content := replace (py "{{TAG_NAME}}") tag_name content in
  let content := replace (py "{{RELEASE_NAME}}") release_name content in
  let content :=
    replace (py "{{DOWNLOAD_SECTIONS}}") download_sections content in
  let content := replace (py "{{CHECKSUMS}}") checksums content in
  content.

Definition main (w : world) (argv : list str) : prog unit :=
  if negb (List.length argv =? 4)%nat then
    print (py "Usage: generate-download-page.py <template_file> <tag_name> <release_name>") ;;;
    sys_exit 1
  else
    let template_file := nth 1 argv [] in
    let tag_name := nth 2 argv [] in
    let release_name := nth 3 argv [] in
    content <-
      match w_read w LocaleDefault template_file with
      | inl content => ret content
      | inr FileNotFoundError =>
        print (py "Error: Template file " ++ template_file ++
               py " not found") ;;;
        sys_exit 1
      | inr e => raise e
      end ;;
    let linux_section :=
      generate_platform_section w (py "Linux") (py "🐧") (py "amo_linux_*") in
    let macos_section :=
      generate_platform_section w (py "macOS") (py "🍎") (py "amo_darwin_*") in
    let windows_section :=
      generate_platform_section w (py "Windows") (py "🪟")
        (py "amo_windows_*.exe") in
    let download_sections :=
      linux_section ++ macos_section ++ windows_section in
    let checksums := generate_checksums_section w in
    let content :=
      render content tag_name release_name download_sections checksums in
    write w LocaleDefault (py "index.html") content ;;;
    print (py "✅ Generated index.html successfully") ;;;
    copy_installation_scripts w.

End En.

(** ** The second-locale script *)

Module Zh.

Definition units : list str := [py "B"; py "KB"; py "MB"; py "GB"].

(** The [for] loop of [get_file_size] and the statement after it: the
    scaled size and the unit of the [return] that is reached; [None] when
    the division raises. *)
Fixpoint scale (size : num) (us : list str) : option (num * str) :=
  match us with
  | [] => Some (size, py "TB")
  | unit :: rest =>
    if lt_1024 size then Some (size, unit)
    else
      match div_1024 size with
      | Some size' => scale size' rest
      | None => None
      end
  end.

(** The body of the [try] of [get_file_size] once [os.path.getsize] has
    handed back [size]; [None] when an exception is raised. *)
Definition get_file_size_of (size : Z) : option str :=
  match scale (PyInt size) units with
  | Some (size', unit) =>
    match format_1f size' with
    | Some s => Some (s ++ unit)
    | None => None
    end
  | None => None
  end.

(** The [if]/[elif] chain of [get_arch_info]: [Some v] when a [return v] is
    executed inside it, [None] when control leaves the chain without one. *)
Definition arch_chain (filename : str) : option value :=
  if contains (py "amd64") filename then
    if contains (py "linux") filename then Some (PyStr (py "64位"))
    else if contains (py "darwin") filename then Some (PyStr (py "Intel"))
    else if contains (py "windows") filename then Some (PyStr (py "64位"))
    else None
  else if contains (py "arm64") filename then
    if contains (py "linux") filename then Some (PyStr (py "ARM64"))
    else if contains (py "darwin") filename then
      Some (PyStr (py "Apple Silicon"))
    else None
  else if contains (py "armv7") filename then Some (PyStr (py "ARMv7"))
  else None.

Definition get_arch_info (filename : str) : value :=
  match arch_chain filename with
  | Some v => v
  | None => PyStr (py "未知")
  end.

Definition get_file_size (w : world) (filepath : str) : str :=
  match getsize w filepath with
  | Some size =>
    match get_file_size_of size with
    | Some s => s
    | None => py "未知"
    end
  | None => py "未知"
  end.

(** The three template strings of [generate_platform_section]. *)
Definition card_open (platform_name platform_icon : str) : str :=
  py "                <div class=" ++ dq ++ py "platform-card" ++ dq ++
  py ">" ++ nl ++
  py "                    <h3><span class=" ++ dq ++ py "platform-icon" ++
  dq ++ py ">" ++ platform_icon ++ py "</span>" ++ platform_name ++
  py "</h3>".

Definition card_item (filename : str) (arch_info : value) (filesize : str)
  : str :=
  nl ++ py "                    <a href=" ++ dq ++ filename ++ dq ++
  py " class=" ++ dq ++ py "download-link" ++ dq ++ py ">" ++ filename ++
  py "</a>" ++ nl ++
  py "                    <div class=" ++ dq ++ py "file-info" ++ dq ++
  py ">" ++ fmt arch_info ++ py " • " ++ filesize ++ py "</div>".

Definition card_close : str :=
  nl ++ py "                </div>".

Definition generate_platform_section (w : world)
  (platform_name platform_icon file_pattern : str) : str :=
  let files := glob w file_pattern in
  let files :=
    filter (fun f => negb (endswith (py ".sha256") f) && isfile w f) files in
  match files with
  | [] => []
  | _ :: _ =>
    let section := card_open platform_name platform_icon in
    let section :=
      fold_left
        (fun section filepath =>
           let filename := basename filepath in
           let filesize := get_file_size w filepath in
           let arch_info := get_arch_info filename in
           section ++ card_item filename arch_info filesize)
        files section in
    section ++ card_close
  end.

(** [f.read().strip().split()[0]] on the file [sha_file]; [None] when one
    of the steps raises. *)
Definition read_checksum (w : world) (sha_file : str) : option str :=
  match w_read w LocaleDefault sha_file with
  | inl text =>
    match split (strip text) with
    | checksum :: _ => Some checksum
    | [] => None
    end
  | inr _ => None
  end.

Definition checksum_item (binary_name checksum : str) : str :=
  nl ++ py "                <div class=" ++ dq ++ py "checksum-item" ++ dq ++
  py ">" ++ nl ++
  py "                    <div class=" ++ dq ++ py "checksum-filename" ++
  dq ++ py ">" ++ binary_name ++ py "</div>" ++ nl ++
  py "                    <div class=" ++ dq ++ py "checksum-hash" ++ dq ++
  py ">" ++ checksum ++ py "</div>" ++ nl ++
  py "                </div>".

Definition generate_checksums_section (w : world) : str :=
  let sha_files := glob w (py "*.sha256") in
  match sha_files with
  | [] => []
  | _ :: _ =>
    fold_left
      (fun checksums sha_file =>
         let binary_name := replace (py ".sha256") [] sha_file in
         if isfile w binary_name then
           match read_checksum w sha_file with
           | Some checksum =>
             checksums ++ checksum_item binary_name checksum
           | None => checksums
           end
         else checksums)
      sha_files []
  end.

Definition scripts : list (str * str) :=
  [ (py "install.sh", py "Unix/Linux/macOS 安装脚本");
    (py "install.ps1", py "Windows PowerShell 安装脚本");
    (py "install.bat", py "Windows 批处理安装脚本") ].

Fixpoint copy_scripts (w : world) (l : list (str * str)) : prog unit :=
  match l with
  | [] => ret tt
  | (script_name, description) :: rest =>
    (if w_src_exists w script_name then
       copy2 w script_name ;;;
       print (py "✅ 已复制 " ++ script_name ++ py " (" ++ description ++
              py ")")
     else
       print (py "⚠️ 警告: 在 " ++ w_src_path w script_name ++
              py " 未找到 " ++ script_name)) ;;;
    copy_scripts w rest
  end.

Definition copy_installation_scripts (w : world) : prog unit :=
  copy_scripts w scripts.

(** The four replacements of [main]. *)
Definition render (content tag_name release_name download_sections
  checksums : str) : str :=
  let content := replace (py "{{TAG_NAME}}") tag_name content in
  let content := replace (py "{{RELEASE_NAME}}") release_name content in
  let content :=
    replace (py "{{DOWNLOAD_SECTIONS}}") download_sections content in
  let content := replace (py "{{CHECKSUMS}}") checksums content in
  content.

Definition main (w : world) (argv : list str) : prog unit :=
  if negb (List.length argv =? 4)%nat then
    print (py "用法: generate-download-page-zh.py <模板文件> <标签名> <发布名>") ;;;
    sys_exit 1
  else
    let template_file := nth 1 argv [] in
    let tag_name := nth 2 argv [] in
    let release_name := nth 3 argv [] in
    content <-
      match w_read w Utf8 template_file with
      | inl content => ret content
      | inr FileNotFoundError =>
        print (py "错误: 模板文件 " ++ template_file ++ py " 未找到") ;;;
        sys_exit 1
      | inr e => raise e
      end ;;
    let linux_section :=
      generate_platform_section w (py "Linux") (py "🐧") (py "amo_linux_*") in
    let macos_section :=
      generate_platform_section w (py "macOS") (py "🍎") (py "amo_darwin_*") in
    let windows_section :=
      generate_platform_section w (py "Windows") (py "🪟")
        (py "amo_windows_*.exe") in
    let download_sections :=
      linux_section ++ macos_section ++ windows_section in
    let checksums := generate_checksums_section w in
    let content :=
      render content tag_name release_name download_sections checksums in
    let zh_dir := py "zh" in
    mkdir_exist_ok w zh_dir ;;;
    let output_file := zh_dir ++ py "/" ++ py "index.html" in
    write w Utf8 output_file content ;;;
    print (py "✅ 成功生成 " ++ output_file) ;;;
    copy_installation_scripts w.

End Zh.


(** ** Concrete directories *)

Module Sample.

Fixpoint str_eqb (a b : str) : bool :=
  match a, b with
  | [], [] => true
  | x :: a', y :: b' => (x =? y)%N && str_eqb a' b'
  | _, _ => false
  end.

(** One entry of a directory: its kind, its size and what reading it as
    text gives. *)
Record entry := { e_kind : kind; e_size : Z; e_text : str + exn }.

Definition regular (text : str) : entry :=
  {| e_kind := Regular; e_size := Z.of_nat (List.length text);
     e_text := inl text |}.

Definition sized (size : Z) : entry :=
  {| e_kind := Regular; e_size := size; e_text := inl [] |}.

Fixpoint lookup (entries : list (str * entry)) (path : str) : option entry :=
  match entries with
  | [] => None
  | (name, e) :: rest =>
    if str_eqb name path then Some e else lookup rest path
  end.

(** The world of a directory holding [entries], listed in that order,
    in which every write, [mkdir] of a fresh name and copy succeeds, both
    encodings read the same text and no installer script is present. *)
Definition world_of (entries : list (str * entry)) : world :=
  {| w_listing := map fst entries;
     w_stat := fun path =>
       option_map (fun e => {| st_kind := e_kind e; st_size := e_size e |})
         (lookup entries path);
     w_read := fun _ path =>
       match lookup entries path with
       | Some e => e_text e
       | None => inr FileNotFoundError
       end;
     w_write := fun _ _ _ => Written;
     w_mkdir := fun path =>
       match lookup entries path with
       | Some _ => Some FileExistsError
       | None => None
       end;
     w_src_path := fun name => py ".github/scripts/" ++ name;
     w_src_exists := fun _ => false;
     w_copy2 := fun _ => None |}.

(** The directory of the end-to-end scenario. *)
Definition release_dir : list (str * entry) :=
  [ (py "template.html",
     regular (py "<h1>{{RELEASE_NAME}} {{TAG_NAME}}</h1>{{DOWNLOAD_SECTIONS}}{{CHECKSUMS}}"));
    (py "amo_linux_amd64", sized 10);
    (py "amo_linux_amd64.sha256", regular (py "abcd1234 amo_linux_amd64")) ].

Definition release_argv : list str :=
  [py "generate-download-page.py"; py "template.html"; py "v1.0";
   py "First Release"].

End Sample.

(** ** The unit a byte count is scaled to *)

Module SizeSpec.

Definition all_units : list str := En.units ++ [py "TB"].

(** The index in [all_units] of the first unit [k] among B, KB, MB, GB
    with [n / 1024 ^ k < 1024], and that of TB when there is none. *)
Definition unit_rank (n : Z) : nat :=
  if (n <? 1024 ^ 1)%Z then 0
  else if (n <? 1024 ^ 2)%Z then 1
  else if (n <? 1024 ^ 3)%Z then 2
  else if (n <? 1024 ^ 4)%Z then 3
  else 4.

(** [float(n) / 1024 ^ k] *)
Definition scaled (n : Z) (k : nat) : float :=
  {| mant := rn53 n; expo := 10 * Z.of_nat k |}.

End SizeSpec.

(** ** The parts of a platform card *)

Module Card.

Definition indent : str := py "                    ".

(** A download link labelled with the file name. *)
Definition download_link (filename : str) : str :=
  py "<a href=" ++ dq ++ filename ++ dq ++ py " class=" ++ dq ++
  py "download-link" ++ dq ++ py ">" ++ filename ++ py "</a>".

(** A caption made of the architecture label and the size. *)
Definition caption (arch_info filesize : str) : str :=
  py "<div class=" ++ dq ++ py "file-info" ++ dq ++ py ">" ++ arch_info ++
  py " • " ++ filesize ++ py "</div>".

(** The files a platform section lists: the matches of the pattern that
    are regular files and do not end in [.sha256], in the order of the
    enumeration. *)
Definition listed (w : world) (file_pattern : str) : list str :=
  filter (fun f => negb (endswith (py ".sha256") f) && isfile w f)
    (glob w file_pattern).

End Card.

(** ** Templates and their placeholders *)

Module Template.

Inductive placeholder := TagName | ReleaseName | DownloadSections | Checksums.

Definition placeholders : list placeholder :=
  [TagName; ReleaseName; DownloadSections; Checksums].

(** The token of a placeholder, as [main] writes it. *)
Definition token (p : placeholder) : str :=
  match p with
  | TagName => py "{{TAG_NAME}}"
  | ReleaseName => py "{{RELEASE_NAME}}"
  | DownloadSections => py "{{DOWNLOAD_SECTIONS}}"
  | Checksums => py "{{CHECKSUMS}}"
  end.

Definition placeholder_eqb (p q : placeholder) : bool :=
  match p, q with
  | TagName, TagName | ReleaseName, ReleaseName
  | DownloadSections, DownloadSections | Checksums, Checksums => true
  | _, _ => false
  end.

(** A template read from left to right is a sequence of pieces: an
    occurrence of a placeholder token, or one character outside of them. *)
Inductive piece := Chr (c : N) | Tok (p : placeholder).

Definition piece_text (x : piece) : str :=
  match x with
  | Chr c => [c]
  | Tok p => token p
  end.

(** The text of a sequence of pieces, and the same with the tokens left
    out. *)
Definition flat (l : list piece) : str := List.concat (map piece_text l).

Definition chars (l : list piece) : str :=
  flat_map (fun x => match x with Chr c => [c] | Tok _ => [] end) l.

(** The placeholder whose token starts [s], if any. *)
Definition placeholder_at (s : str) : option placeholder :=
  find (fun p => startswith (token p) s) placeholders.

Fixpoint tokenize_from (skip : nat) (s : str) : list piece :=
  match s with
  | [] => []
  | c :: s' =>
    match skip with
    | S k => tokenize_from k s'
    | O =>
      match placeholder_at s with
      | Some p => Tok p :: tokenize_from (List.length (token p) - 1) s'
      | None => Chr c :: tokenize_from 0 s'
      end
    end
  end.

Definition tokenize (s : str) : list piece := tokenize_from 0 s.

(** The template with the occurrences of the four tokens deleted and
    every other character unchanged. *)
Definition delete_placeholders (template : str) : str :=
  chars (tokenize template).

(** The pieces without the occurrences of one placeholder. *)
Definition without (p : placeholder) (l : list piece) : list piece :=
  filter (fun x => match x with
                   | Chr _ => true
                   | Tok q => negb (placeholder_eqb p q)
                   end) l.

End Template.

(** ** Checksum records *)

Module Checksum.

(** The longest prefix without whitespace. *)
Fixpoint word (s : str) : str :=
  match s with
  | [] => []
  | c :: s' => if isspace c then [] else c :: word s'
  end.

(** The first whitespace-delimited token of a text, if it has one. *)
Definition first_token (text : str) : option str :=
  match word (lstrip text) with
  | [] => None
  | c :: w => Some (c :: w)
  end.

(** The first line of a text: what precedes the first line feed. *)
Fixpoint first_line (text : str) : str :=
  match text with
  | [] => []
  | c :: text' => if (c =? 10)%N then [] else c :: first_line text'
  end.

(** A name without its suffix [suf], when it ends with it. *)
Definition strip_suffix (suf name : str) : str :=
  if endswith suf name
  then firstn (List.length name - List.length suf) name
  else name.

(** What one checksum file contributes to the section: its block when
    the artifact named after it is a regular file and the file can be
    read and holds a token, and nothing otherwise. *)
Definition entry (w : world) (sha_file : str) : str :=
  let binary_name := replace (py ".sha256") [] sha_file in
  if isfile w binary_name then
    match w_read w LocaleDefault sha_file with
    | inl text =>
      match first_token text with
      | Some checksum => En.checksum_item binary_name checksum
      | None => []
      end
    | inr _ => []
    end
  else [].

(** A directory in which an artifact has [.sha256] inside its name. *)
Definition inner_suffix_dir : list (str * Sample.entry) :=
  [ (py "amo_linux_amd64.sha256sum", Sample.sized 10);
    (py "amo_linux_amd64.sha256sum.sha256",
     Sample.regular (py "abcd1234  amo_linux_amd64.sha256sum")) ].

(** A directory in which the first line of a checksum file is blank, one
    checksum file cannot be read and one is empty. *)
Definition blank_line_dir : list (str * Sample.entry) :=
  [ (py "amo_linux_amd64", Sample.sized 10);
    (py "amo_linux_amd64.sha256",
     Sample.regular (nl ++ py "abcd1234  amo_linux_amd64" ++ nl));
    (py "amo_linux_arm64", Sample.sized 10);
    (py "amo_linux_arm64.sha256",
     {| Sample.e_kind := Regular; Sample.e_size := 0;
        Sample.e_text := inr PermissionError |});
    (py "amo_darwin_arm64", Sample.sized 10);
    (py "amo_darwin_arm64.sha256", Sample.regular (py "  "));
    (py "amo_darwin_amd64", Sample.sized 10);
    (py "amo_darwin_amd64.sha256",
     Sample.regular (py "ef56 amo_darwin_amd64")) ].

End Checksum.

(** ** One generator for both locales *)

Module Generic.

(** The microcopy in which the pages of the two scripts differ. *)
Record microcopy := { unknown : str; label_64bit : str }.

Definition en : microcopy :=
  {| unknown := py "Unknown"; label_64bit := py "64-bit" |}.

Definition zh : microcopy :=
  {| unknown := py "未知"; label_64bit := py "64位" |}.

Section Locale.

Variable L : microcopy.

Definition get_file_size (w : world) (filepath : str) : str :=
  match getsize w filepath with
  | Some size =>
    match En.get_file_size_of size with
    | Some s => s
    | None => unknown L
    end
  | None => unknown L
  end.

Definition get_arch_info (filename : str) : value :=
  let has sub := contains sub filename in
  if has (py "amd64") then
    if has (py "linux") then PyStr (label_64bit L)
    else if has (py "darwin") then PyStr (py "Intel")
    else if has (py "windows") then PyStr (label_64bit L)
    else PyStr (unknown L)
  else if has (py "arm64") then
    if has (py "linux") then PyStr (py "ARM64")
    else if has (py "darwin") then PyStr (py "Apple Silicon")
    else PyStr (unknown L)
  else if has (py "armv7") then PyStr (py "ARMv7")
  else PyStr (unknown L).

Definition generate_platform_section (w : world)
  (platform_name platform_icon file_pattern : str) : str :=
  match Card.listed w file_pattern with
  | [] => []
  | files =>
    En.card_open platform_name platform_icon ++
    List.concat
      (map (fun filepath =>
              En.card_item (basename filepath)
                (get_arch_info (basename filepath))
                (get_file_size w filepath)) files) ++
    En.card_close
  end.

Definition download_sections (w : world) : str :=
  generate_platform_section w (py "Linux") (py "🐧") (py "amo_linux_*") ++
  generate_platform_section w (py "macOS") (py "🍎") (py "amo_darwin_*") ++
  generate_platform_section w (py "Windows") (py "🪟")
    (py "amo_windows_*.exe").

(** The rendered page. *)
Definition page (w : world) (content tag_name release_name : str) : str :=
  En.render content tag_name release_name (download_sections w)
    (En.generate_checksums_section w).

End Locale.

End Generic.

(** ** What a run leaves behind *)

Module Trace.

Definition written (t : list event) : list (str * str) :=
  flat_map (fun e => match e with
                     | WriteFile p c => [(p, c)]
                     | _ => []
                     end) t.

Definition copied (t : list event) : list (str * str) :=
  flat_map (fun e => match e with
                     | Copy2 src dst => [(src, dst)]
                     | _ => []
                     end) t.


(** The directory of the end-to-end scenario with a regular file named
    [zh] in it. *)
Definition zh_file_dir : list (str * Sample.entry) :=
  Sample.release_dir ++ [ (py "zh", Sample.regular (py "notes")) ].

End Trace.

(** ** Labels of the two locales *)

Module Labels.

(** The labels the default script can give. *)
Definition all : list str :=
  [py "64-bit"; py "Intel"; py "ARM64"; py "Apple Silicon"; py "ARMv7";
   py "Unknown"].

(** The label of the second script for a label of the default one. *)
Definition translate (v : value) : value :=
  match v with
  | PyNone => PyNone
  | PyStr s =>
    if Sample.str_eqb s (py "64-bit") then PyStr (py "64位")
    else if Sample.str_eqb s (py "Unknown") then PyStr (py "未知")
    else PyStr s
  end.

End Labels.

(** ** Patterns *)

Module Pattern.

(** The characters [*] and [?], which a pattern does not take
    literally. *)
Definition wild (c : N) : bool := ((c =? 42) || (c =? 63))%N.

(** A pattern without wildcard. *)
Definition literal (pat : str) : bool := forallb (fun c => negb (wild c)) pat.

End Pattern.

(** ** Installer scripts *)

Module Scripts.

(** The names of the installer scripts, in the order of the loop. *)
Definition names : list str :=
  [py "install.sh"; py "install.ps1"; py "install.bat"].

(** The copy of the script [name]: from beside the generator to the
    current directory, under the same name. *)
Definition copy_of (w : world) (name : str) : str * str :=
  (w_src_path w name, name).

(** The directories a run has made and the messages it has printed. *)
Definition made (t : list event) : list str :=
  flat_map (fun e => match e with MkDir p => [p] | _ => [] end) t.





End Scripts.

(** ** Substitution of all placeholders at once *)

Module Subst.

Import Template.

(** The content that stands for a placeholder. *)
Definition value_of (tag_name release_name download_sections checksums : str)
  (p : placeholder) : str :=
  match p with
  | TagName => tag_name
  | ReleaseName => release_name
  | DownloadSections => download_sections
  | Checksums => checksums
  end.

(** The template with every occurrence of a placeholder token replaced
    by its content, in one pass, and every other character kept. *)
Definition substitute
  (template tag_name release_name download_sections checksums : str) : str :=
  flat_map
    (fun x =>
       match x with
       | Chr c => [c]
       | Tok p =>
         value_of tag_name release_name download_sections checksums p
       end)
    (tokenize template).

(** A text without opening brace. *)
Definition nobrace (s : str) : bool :=
  forallb (fun c => negb (c =? 123)%N) s.

(** A content during the replacements: characters of the template,
    tokens still to be replaced, and texts already put in. *)
Inductive seg := SChr (c : N) | STok (p : placeholder) | STxt (s : str).

Definition seg_text (x : seg) : str :=
  match x with
  | SChr c => [c]
  | STok p => token p
  | STxt s => s
  end.

Definition text (l : list seg) : str := List.concat (map seg_text l).

Definition embed (x : piece) : seg :=
  match x with
  | Chr c => SChr c
  | Tok p => STok p
  end.

(** One replacement: the tokens of [p] become the text [v]. *)
Definition put (p : placeholder) (v : str) (x : seg) : seg :=
  match x with
  | STok q => if placeholder_eqb p q then STxt v else STok q
  | _ => x
  end.

(** No two opening braces follow each other once the tokens are left
    out, and the texts put in have none; [b] tells that the last
    character before [l] is an opening brace. *)
Fixpoint ok (b : bool) (l : list seg) : bool :=
  match l with
  | [] => true
  | SChr c :: r =>
    if (c =? 123)%N then negb b && ok true r else ok false r
  | STok _ :: r => ok b r
  | STxt s :: r =>
    nobrace s && ok (match s with [] => b | _ :: _ => false end) r
  end.

End Subst.

(** * Properties *)

Example py_bullet : py "a•b" = [97; 8226; 98]%N.
Proof. reflexivity. Qed.

Example arch_ex1 :
  En.get_arch_info (py "amo_linux_amd64") = PyStr (py "64-bit").
Proof. reflexivity. Qed.

Example size_ex1 : En.get_file_size_of 1536 = Some (py "1.5KB").
Proof. reflexivity. Qed.
Example size_ex2 : En.get_file_size_of 10 = Some (py "10.0B").
Proof. reflexivity. Qed.
Example size_ex3 : En.get_file_size_of 1048575 = Some (py "1024.0KB").
Proof. reflexivity. Qed.
Example size_ex4 : En.get_file_size_of (2^50) = Some (py "1024.0TB").
Proof. reflexivity. Qed.
Example size_ex5 : En.get_file_size_of 1280 = Some (py "1.2KB").
Proof. reflexivity. Qed.
Example size_ex6 : En.get_file_size_of (2^1024) = None.
Proof. vm_compute. reflexivity. Qed.
Example size_ex7 : En.get_file_size_of (2^60+1) = Some (py "1048576.0TB").
Proof. vm_compute. reflexivity. Qed.

Example end_to_end :
  exists page,
    Trace.written (fst (En.main (Sample.world_of Sample.release_dir)
                           Sample.release_argv)) = [(py "index.html", page)]
    /\ contains (py "First Release v1.0") page = true
    /\ contains (py "<a href=" ++ dq ++ py "amo_linux_amd64" ++ dq) page = true
    /\ contains (py "64-bit • 10.0B") page = true
    /\ contains (py "abcd1234") page = true.
Proof. eexists. vm_compute. repeat split. Qed.

(** ** Architecture labels *)

Section ArchInfo.

Variable filename : str.

Let has (sub : string) : bool := contains (py sub) filename.

(** C2 (amended).  The rules are tried in the order amd64, arm64, armv7
    and, inside amd64 and arm64, in the order linux, darwin, windows; the
    first rule that applies decides.  So amd64 with linux gives "64-bit";
    amd64 with darwin gives "Intel" when linux is absent; arm64 with
    darwin gives "Apple Silicon" when amd64 and linux are absent; armv7
    gives "ARMv7", whatever platform substring occurs, when amd64 and
    arm64 are absent; and a name with none of amd64, arm64, armv7 gives
    the sentinel "Unknown". *)
Theorem get_arch_info_rules :
  (has "amd64" = true -> has "linux" = true ->
   En.get_arch_info filename = PyStr (py "64-bit")) /\
  (has "amd64" = true -> has "linux" = false -> has "darwin" = true ->
   En.get_arch_info filename = PyStr (py "Intel")) /\
  (has "amd64" = false -> has "arm64" = true ->
   has "linux" = false -> has "darwin" = true ->
   En.get_arch_info filename = PyStr (py "Apple Silicon")) /\
  (has "amd64" = false -> has "arm64" = false -> has "armv7" = true ->
   En.get_arch_info filename = PyStr (py "ARMv7")) /\
  (has "amd64" = false -> has "arm64" = false -> has "armv7" = false ->
   En.get_arch_info filename = PyStr (py "Unknown")).
Proof.
  unfold has, En.get_arch_info, En.arch_chain.
  repeat split; intros; repeat match goal with
    | H : contains _ _ = _ |- _ => rewrite H; clear H
    end; reflexivity.
Qed.

(** C3 (amended).  A name with amd64 but none of linux, darwin, windows,
    or with arm64 (and no amd64) but neither linux nor darwin, leaves the
    chain of tests without a [return] and reaches the last statement of
    the function: the label is the sentinel "Unknown".  No name is
    labelled [None]. *)
Theorem get_arch_info_inner_miss :
  (has "amd64" = true -> has "linux" = false -> has "darwin" = false ->
   has "windows" = false ->
   En.get_arch_info filename = PyStr (py "Unknown")) /\
  (has "amd64" = false -> has "arm64" = true -> has "linux" = false ->
   has "darwin" = false ->
   En.get_arch_info filename = PyStr (py "Unknown")) /\
  En.get_arch_info filename <> PyNone.
Proof.
  unfold has, En.get_arch_info, En.arch_chain.
  repeat split; intros; repeat match goal with
    | H : contains _ _ = _ |- _ => rewrite H; clear H
    end; try reflexivity.
  repeat match goal with
    | |- context [if ?b then _ else _] => destruct b
    end; discriminate.
Qed.

End ArchInfo.

Lemma get_arch_info_rules_witness :
  En.get_arch_info (py "amo_darwin_amd64") = PyStr (py "Intel")
  /\ En.get_arch_info (py "amo_linux_armv7") = PyStr (py "ARMv7").
Proof.
  split.
  - apply (proj1 (proj2 (get_arch_info_rules (py "amo_darwin_amd64"))));
      reflexivity.
  - apply (proj1 (proj2 (proj2 (proj2
             (get_arch_info_rules (py "amo_linux_armv7"))))));
      reflexivity.
Defined.

(** A name with armv7 is not labelled "ARMv7" when amd64 occurs in it
    too, and a name with amd64 and darwin is not labelled "Intel" when
    linux occurs in it too. *)
Lemma get_arch_info_rules_counterexample :
  contains (py "armv7") (py "amo_linux_amd64_armv7") = true
  /\ En.get_arch_info (py "amo_linux_amd64_armv7") <> PyStr (py "ARMv7")
  /\ contains (py "amd64") (py "amo_darwin_amd64_linux") = true
  /\ contains (py "darwin") (py "amo_darwin_amd64_linux") = true
  /\ En.get_arch_info (py "amo_darwin_amd64_linux") <> PyStr (py "Intel").
Proof. repeat split; vm_compute; discriminate. Qed.

Lemma get_arch_info_inner_miss_witness :
  En.get_arch_info (py "amo_freebsd_amd64") = PyStr (py "Unknown").
Proof.
  apply (proj1 (get_arch_info_inner_miss (py "amo_freebsd_amd64")));
    reflexivity.
Defined.

(** A name in the amd64 branch without a platform substring, and one in
    the arm64 branch, are labelled with the sentinel, not with [None]. *)
Lemma get_arch_info_inner_miss_counterexample :
  contains (py "amd64") (py "amo_freebsd_amd64") = true
  /\ contains (py "linux") (py "amo_freebsd_amd64") = false
  /\ contains (py "darwin") (py "amo_freebsd_amd64") = false
  /\ contains (py "windows") (py "amo_freebsd_amd64") = false
  /\ En.get_arch_info (py "amo_freebsd_amd64") = PyStr (py "Unknown")
  /\ En.get_arch_info (py "amo_windows_arm64.exe") = PyStr (py "Unknown").
Proof. repeat split. Qed.

(** ** File sizes *)

Section Rounding.

Local Open Scope Z_scope.

Lemma round_half_even_bounds (a b : Z) :
  0 < b -> a / b <= round_half_even a b <= a / b + 1.
Proof.
  intros Hb. unfold round_half_even.
  destruct (2 * (a mod b) <? b); [lia|].
  destruct (b <? 2 * (a mod b)); [lia|].
  destruct (Z.even (a / b)); lia.
Qed.

Lemma round_half_even_exact (a : Z) : round_half_even a 1 = a.
Proof.
  unfold round_half_even. rewrite Z.mod_1_r, Z.div_1_r. reflexivity.
Qed.

Lemma rn53_small (n : Z) : 0 <= n < 2 ^ 53 -> rn53 n = n.
Proof.
  intros [H0 H1]. unfold rn53.
  destruct (Z.leb_spec (Z.log2 (Z.abs n) - 52) 0) as [|Hlt]; [reflexivity|].
  exfalso. rewrite Z.abs_eq in Hlt by assumption.
  assert (0 < n) by (destruct (Z.eq_dec n 0); [subst; discriminate Hlt|lia]).
  apply (Z.log2_lt_pow2 n 53) in H1; lia.
Qed.

Lemma rn53_large (n : Z) : 2 ^ 53 <= n -> 2 ^ 53 <= rn53 n.
Proof.
  intros H. unfold rn53.
  assert (Hn : 0 < n) by (assert (0 < 2 ^ 53) by reflexivity; lia).
  rewrite Z.abs_eq by lia.
  destruct (Z.leb_spec (Z.log2 n - 52) 0) as [|He]; [assumption|].
  set (e := Z.log2 n - 52) in *.
  assert (Hd : 0 < 2 ^ e) by (apply Z.pow_pos_nonneg; lia).
  pose proof (round_half_even_bounds n Hd) as [Hr _].
  destruct (Z.log2_spec n Hn) as [Hlo _].
  replace (Z.log2 n) with (52 + e) in Hlo by (unfold e; lia).
  rewrite Z.pow_add_r in Hlo by lia.
  assert (2 ^ 52 <= n / 2 ^ e).
  { apply Z.div_le_lower_bound; lia. }
  assert (2 ^ 1 <= 2 ^ e) by (apply Z.pow_le_mono_r; lia).
  change (2 ^ 53) with (2 ^ 52 * 2 ^ 1). nia.
Qed.

Lemma rn53_nonneg (n : Z) : 0 <= n -> 0 <= rn53 n.
Proof.
  intros H. unfold rn53.
  destruct (Z.log2 (Z.abs n) - 52 <=? 0) eqn:E; [assumption|].
  apply Z.leb_gt in E.
  assert (Hd : 0 < 2 ^ (Z.log2 (Z.abs n) - 52))
    by (apply Z.pow_pos_nonneg; lia).
  pose proof (round_half_even_bounds n Hd) as [Hr _].
  assert (0 <= n / 2 ^ (Z.log2 (Z.abs n) - 52))
    by (apply Z.div_pos; lia).
  nia.
Qed.

Lemma rn53_below (n : Z) (b : Z) :
  0 <= n < 2 ^ b -> 53 <= b -> rn53 n <= 2 ^ b.
Proof.
  intros [H0 H1] Hb. unfold rn53.
  rewrite Z.abs_eq by assumption.
  destruct (Z.leb_spec (Z.log2 n - 52) 0) as [|He]; [lia|].
  assert (Hn : 0 < n).
  { destruct (Z.eq_dec n 0) as [->|]; [discriminate He|lia]. }
  set (e := Z.log2 n - 52) in *.
  assert (Hd : 0 < 2 ^ e) by (apply Z.pow_pos_nonneg; lia).
  pose proof (round_half_even_bounds n Hd) as [_ Hr].
  destruct (Z.log2_spec n Hn) as [_ Hhi].
  replace (Z.succ (Z.log2 n)) with (53 + e) in Hhi by (unfold e; lia).
  rewrite Z.pow_add_r in Hhi by lia.
  assert (n / 2 ^ e < 2 ^ 53).
  { apply Z.div_lt_upper_bound; lia. }
  assert (Hle : Z.log2 n < b) by (apply Z.log2_lt_pow2; lia).
  assert (2 ^ (53 + e) <= 2 ^ b) by (apply Z.pow_le_mono_r; unfold e; lia).
  rewrite Z.pow_add_r in * by lia.
  nia.
Qed.

(** The powers of two that bound the integers a double can hold. *)
Lemma double_powers :
  2 ^ 971 = 2 * 2 ^ 970 /\ 2 ^ 1023 = 2 ^ 53 * 2 ^ 970
  /\ 2 ^ 1024 = 2 ^ 54 * 2 ^ 970 /\ 0 < 2 ^ 970.
Proof. repeat split; vm_compute; reflexivity. Qed.

Lemma below_double_limit (n : Z) : n < 2 ^ 1023 -> n < 2 ^ 1024 - 2 ^ 970.
Proof.
  destruct double_powers as (_ & E2 & E3 & Hd). rewrite E2, E3.
  change (2 ^ 53) with 9007199254740992.
  change (2 ^ 54) with 18014398509481984. lia.
Qed.

(** Just below the limit the rounding still ends below [2 ^ 1024]. *)
Lemma rn53_top (n : Z) :
  2 ^ 1023 <= n < 2 ^ 1024 - 2 ^ 970 -> rn53 n < 2 ^ 1024.
Proof.
  intros [Hlo Hhi]. destruct double_powers as (E1 & E2 & E3 & Hd).
  assert (Hn : 0 < n) by (rewrite E2 in Hlo; nia).
  assert (Hlog : Z.log2 n = 1023).
  { apply Z.log2_unique; [lia|]. split; [exact Hlo|].
    replace (Z.succ 1023) with 1024 by reflexivity. lia. }
  unfold rn53. rewrite Z.abs_eq, Hlog by lia.
  replace (1023 - 52) with 971 by reflexivity.
  destruct (Z.leb_spec 971 0); [lia|].
  unfold round_half_even.
  assert (HD : 0 < 2 ^ 971) by lia.
  pose proof (Z.div_mod n (2 ^ 971) ltac:(lia)) as Hdm.
  pose proof (Z.mod_pos_bound n (2 ^ 971) HD) as Hr.
  set (q := n / 2 ^ 971) in *. set (r := n mod 2 ^ 971) in *.
  rewrite E1 in *. rewrite E3 in *. set (d := 2 ^ 970) in *.
  change (2 ^ 54) with 18014398509481984 in *.
  assert (Hq : q <= 9007199254740991) by nia.
  destruct (Z.ltb_spec (2 * r) (2 * d)); [nia|].
  assert (Hq2 : q <= 9007199254740990) by nia.
  destruct (Z.ltb_spec (2 * d) (2 * r)); [nia|].
  destruct (Z.even q); nia.
Qed.

Lemma float_of_int_total (n : Z) :
  0 <= n < 2 ^ 1024 - 2 ^ 970 ->
  float_of_int n = Some {| mant := rn53 n; expo := 0 |}.
Proof.
  intros H. unfold float_of_int.
  pose proof (rn53_nonneg (proj1 H)).
  assert (rn53 n < 2 ^ 1024).
  { destruct (Z.lt_ge_cases n (2 ^ 1023)).
    - assert (rn53 n <= 2 ^ 1023) by (apply rn53_below; lia).
      assert (2 ^ 1023 < 2 ^ 1024) by (apply Z.pow_lt_mono_r; lia). lia.
    - apply rn53_top. lia. }
  destruct (Z.leb_spec (2 ^ 1024) (Z.abs (rn53 n))); [lia|reflexivity].
Qed.

End Rounding.

Section FileSize.

Local Open Scope Z_scope.

Lemma tenths_bound (v e : Z) :
  0 <= e -> 0 <= v < 1024 * 2 ^ e ->
  0 <= tenths {| mant := v; expo := e |} <= 10240.
Proof.
  intros He [H0 H1]. unfold tenths; cbn [mant expo].
  assert (Hd : 0 < 2 ^ e) by (apply Z.pow_pos_nonneg; lia).
  pose proof (round_half_even_bounds (10 * v) Hd) as [Hlo Hhi].
  assert (0 <= 10 * v / 2 ^ e) by (apply Z.div_pos; lia).
  assert (10 * v / 2 ^ e < 10240) by (apply Z.div_lt_upper_bound; lia).
  lia.
Qed.

Lemma scale_float (x : float) (unit : str) (rest : list str) :
  En.scale (PyFloat x) (unit :: rest) =
  if mant x <? 1024 * 2 ^ expo x then Some (PyFloat x, unit)
  else En.scale (PyFloat {| mant := mant x; expo := expo x + 10 |}) rest.
Proof. reflexivity. Qed.

Lemma scale_int (n : Z) (unit : str) (rest : list str) :
  0 <= n < 2 ^ 1024 - 2 ^ 970 ->
  En.scale (PyInt n) (unit :: rest) =
  if n <? 1024 then Some (PyInt n, unit)
  else En.scale (PyFloat {| mant := rn53 n; expo := 10 |}) rest.
Proof.
  intros H. cbn [En.scale lt_1024 div_1024].
  rewrite (float_of_int_total H). reflexivity.
Qed.

(** The loop on a byte count: the unit is the one [unit_rank] names and
    the size is [float(n)] divided that many times, except that a count
    below 1024 is still the [int] it was. *)
Lemma scale_unit_rank (n : Z) :
  0 <= n < 2 ^ 1024 - 2 ^ 970 ->
  let k := SizeSpec.unit_rank n in
  exists size unit,
    En.scale (PyInt n) En.units = Some (size, unit)
    /\ nth_error SizeSpec.all_units k = Some unit
    /\ to_float size = Some (SizeSpec.scaled n k).
Proof.
  intros H k. subst k. unfold SizeSpec.unit_rank, En.units.
  rewrite (scale_int _ _ H).
  change (1024 ^ 1) with 1024.
  destruct (Z.ltb_spec n 1024) as [H1|H1].
  { exists (PyInt n), (py "B"). repeat split.
    cbn [to_float]. apply float_of_int_total, H. }
  assert (Hr : 1024 <= rn53 n /\ (n < 2 ^ 53 -> rn53 n = n)
               /\ (2 ^ 53 <= n -> 2 ^ 53 <= rn53 n)).
  { split; [|split].
    - destruct (Z.lt_ge_cases n (2 ^ 53)).
      + rewrite rn53_small; lia.
      + pose proof (rn53_large H0). change (2 ^ 53) with 9007199254740992 in *.
        lia.
    - intros; apply rn53_small; lia.
    - apply rn53_large. }
  destruct Hr as (Hr1 & Hr2 & Hr3).
  change (2 ^ 53) with 9007199254740992 in Hr2, Hr3.
  rewrite scale_float; cbn [mant expo].
  change (1024 * 2 ^ 10) with 1048576. change (1024 ^ 2) with 1048576.
  destruct (Z.ltb_spec n 1048576) as [H2|H2].
  { rewrite Hr2 by lia. destruct (Z.ltb_spec n 1048576); [|lia].
    do 2 eexists. repeat split. unfold SizeSpec.scaled. cbn [to_float].
    rewrite Hr2 by lia. reflexivity. }
  destruct (Z.ltb_spec (rn53 n) 1048576) as [Hc|_].
  { exfalso. destruct (Z.lt_ge_cases n 9007199254740992);
      [rewrite Hr2 in Hc by lia|specialize (Hr3 ltac:(lia))]; lia. }
  rewrite scale_float; cbn [mant expo].
  change (1024 * 2 ^ (10 + 10)) with 1073741824.
  change (1024 ^ 3) with 1073741824.
  destruct (Z.ltb_spec n 1073741824) as [H3|H3].
  { rewrite Hr2 by lia. destruct (Z.ltb_spec n 1073741824); [|lia].
    do 2 eexists. repeat split. unfold SizeSpec.scaled. cbn [to_float].
    rewrite Hr2 by lia. reflexivity. }
  destruct (Z.ltb_spec (rn53 n) 1073741824) as [Hc|_].
  { exfalso. destruct (Z.lt_ge_cases n 9007199254740992);
      [rewrite Hr2 in Hc by lia|specialize (Hr3 ltac:(lia))]; lia. }
  rewrite scale_float; cbn [mant expo].
  change (1024 * 2 ^ (10 + 10 + 10)) with 1099511627776.
  change (1024 ^ 4) with 1099511627776.
  destruct (Z.ltb_spec n 1099511627776) as [H4|H4].
  { rewrite Hr2 by lia. destruct (Z.ltb_spec n 1099511627776); [|lia].
    do 2 eexists. repeat split. unfold SizeSpec.scaled. cbn [to_float].
    rewrite Hr2 by lia. reflexivity. }
  destruct (Z.ltb_spec (rn53 n) 1099511627776) as [Hc|_].
  { exfalso. destruct (Z.lt_ge_cases n 9007199254740992);
      [rewrite Hr2 in Hc by lia|specialize (Hr3 ltac:(lia))]; lia. }
  do 2 eexists. repeat split.
Qed.

(** C1 (amended).  For a byte count [n] with [0 <= n < 2 ^ 1024 - 2 ^ 970],
    the integers a double can hold, the result is [float(n) / 1024 ^ k]
    printed with one decimal, followed by the unit of index [k] in B, KB,
    MB, GB, TB, where [k] is the first index below 4 with
    [n / 1024 ^ k < 1024] and 4 (TB) when there is none.  The index does
    not decrease when [n] grows.  For [n < 1024 ^ 5] the scaled value lies
    in [0, 1024) and the printed number, which is rounded to a tenth,
    lies in [0, 1024.0].  For [n >= 1024 ^ 5] the unit is TB and the
    scaled value and the printed number are 1024 or more. *)
Theorem get_file_size_of_scaled (n m : Z) :
  0 <= n <= m -> m < 2 ^ 1024 - 2 ^ 970 ->
  let k := SizeSpec.unit_rank n in
  let x := SizeSpec.scaled n k in
  exists unit,
    nth_error SizeSpec.all_units k = Some unit
    /\ En.get_file_size_of n = Some (fixed1 x ++ unit)
    /\ (forall j : nat, (j < k)%nat -> 1024 ^ (Z.of_nat j + 1) <= n)
    /\ ((k < 4)%nat -> n < 1024 ^ (Z.of_nat k + 1))
    /\ (n < 1024 ^ 5 ->
        mant x = n /\ 0 <= mant x < 1024 * 2 ^ expo x
        /\ 0 <= tenths x <= 10240)
    /\ (1024 ^ 5 <= n ->
        nth_error SizeSpec.all_units k = Some (py "TB")
        /\ 1024 * 2 ^ expo x <= mant x /\ 10240 <= tenths x)
    /\ (SizeSpec.unit_rank n <= SizeSpec.unit_rank m)%nat.
Proof.
  intros Hnm Hm k x.
  assert (Hn : 0 <= n < 2 ^ 1024 - 2 ^ 970) by lia.
  destruct (scale_unit_rank Hn) as (size & unit & Hs & Hu & Hf).
  exists unit. split; [exact Hu|]. split.
  { unfold En.get_file_size_of, format_1f. rewrite Hs, Hf. reflexivity. }
  assert (Hk :
    (k = 0%nat /\ n < 1024) \/ (k = 1%nat /\ 1024 <= n < 1024 ^ 2) \/
    (k = 2%nat /\ 1024 ^ 2 <= n < 1024 ^ 3) \/
    (k = 3%nat /\ 1024 ^ 3 <= n < 1024 ^ 4) \/
    (k = 4%nat /\ 1024 ^ 4 <= n)).
  { subst k. unfold SizeSpec.unit_rank. change (1024 ^ 1) with 1024.
    destruct (Z.ltb_spec n 1024); [lia|].
    destruct (Z.ltb_spec n (1024 ^ 2)); [lia|].
    destruct (Z.ltb_spec n (1024 ^ 3)); [lia|].
    destruct (Z.ltb_spec n (1024 ^ 4)); lia. }
  assert (Hmono : (SizeSpec.unit_rank n <= SizeSpec.unit_rank m)%nat).
  { unfold SizeSpec.unit_rank. change (1024 ^ 1) with 1024.
    change (1024 ^ 2) with 1048576. change (1024 ^ 3) with 1073741824.
    change (1024 ^ 4) with 1099511627776.
    repeat match goal with
    | |- context [?a <? ?b] => destruct (Z.ltb_spec a b)
    end; lia. }
  change (1024 ^ 2) with 1048576 in Hk. change (1024 ^ 3) with 1073741824 in Hk.
  change (1024 ^ 4) with 1099511627776 in Hk.
  split; [|split; [|split; [|split; [|exact Hmono]]]].
  - intros j Hj.
    assert (Hj' : (j = 0 \/ j = 1 \/ j = 2 \/ j = 3)%nat)
      by (destruct Hk as [?|[?|[?|[?|?]]]]; lia).
    destruct Hj' as [-> | [-> | [-> | ->]]]; cbn [Z.of_nat Pos.of_succ_nat Pos.succ Z.add Pos.add];
      [change (1024 ^ 1) with 1024 | change (1024 ^ 2) with 1048576
      | change (1024 ^ 3) with 1073741824
      | change (1024 ^ 4) with 1099511627776];
      destruct Hk as [?|[?|[?|[?|?]]]]; lia.
  - intros Hk4.
    destruct Hk as [[E ?]|[[E ?]|[[E ?]|[[E ?]|[E ?]]]]]; rewrite E in *;
      cbn [Z.of_nat Pos.of_succ_nat Pos.succ Z.add Pos.add];
      [change (1024 ^ 1) with 1024 | change (1024 ^ 2) with 1048576
      | change (1024 ^ 3) with 1073741824
      | change (1024 ^ 4) with 1099511627776 | ]; lia.
  - intros H5. change (1024 ^ 5) with 1125899906842624 in H5.
    assert (Hrn : rn53 n = n).
    { apply rn53_small. change (2 ^ 53) with 9007199254740992. lia. }
    assert (Hb : 0 <= n < 1024 * 2 ^ (10 * Z.of_nat k)).
    { destruct Hk as [[E ?]|[[E ?]|[[E ?]|[[E ?]|[E ?]]]]]; rewrite E;
        [change (1024 * 2 ^ (10 * Z.of_nat 0)) with 1024
        | change (1024 * 2 ^ (10 * Z.of_nat 1)) with 1048576
        | change (1024 * 2 ^ (10 * Z.of_nat 2)) with 1073741824
        | change (1024 * 2 ^ (10 * Z.of_nat 3)) with 1099511627776
        | change (1024 * 2 ^ (10 * Z.of_nat 4)) with 1125899906842624 ];
        lia. }
    subst x. unfold SizeSpec.scaled. cbn [mant expo]. rewrite Hrn.
    split; [reflexivity|]. split; [exact Hb|].
    apply tenths_bound; [lia|exact Hb].
  - intros H5. change (1024 ^ 5) with 1125899906842624 in H5.
    assert (E : k = 4%nat) by (destruct Hk as [?|[?|[?|[?|?]]]]; lia).
    assert (Hrn : 1125899906842624 <= rn53 n).
    { destruct (Z.lt_ge_cases n (2 ^ 53)) as [Hlt|Hge].
      - rewrite rn53_small by lia. exact H5.
      - apply rn53_large in Hge.
        change (2 ^ 53) with 9007199254740992 in Hge. lia. }
    subst x. rewrite E. split; [reflexivity|].
    unfold SizeSpec.scaled, tenths. cbn [mant expo].
    change (10 * Z.of_nat 4) with 40.
    change (2 ^ 40) with 1099511627776.
    split; [lia|].
    pose proof (@round_half_even_bounds (10 * rn53 n) 1099511627776
                  ltac:(lia)) as [Hlo _].
    assert (10240 <= 10 * rn53 n / 1099511627776)
      by (apply Z.div_le_lower_bound; lia).
    lia.
Qed.

End FileSize.

Lemma get_file_size_of_scaled_witness :
  exists unit,
    nth_error SizeSpec.all_units 1 = Some unit
    /\ En.get_file_size_of 1536 = Some (py "1.5" ++ unit).
Proof.
  destruct (@get_file_size_of_scaled 1536 2048) as (unit & Hu & Hs & _);
    [lia | vm_compute; reflexivity |].
  exists unit. split; [exact Hu | exact Hs].
Defined.

(** The byte count [1024 ^ 5] is printed as 1024.0 terabytes, and the
    count [1024 ^ 2 - 1], whose scaled value is below 1024, is printed as
    1024.0 kilobytes: the numeric part is not below 1024. *)
Lemma get_file_size_of_scaled_counterexample :
  En.get_file_size_of (1024 ^ 5) = Some (py "1024.0TB")
  /\ En.scale (PyInt (1024 ^ 5)) En.units
     = Some (PyFloat {| mant := 1024 ^ 5; expo := 40 |}, py "TB")
  /\ ~ (1024 ^ 5 < 1024 * 2 ^ 40)%Z
  /\ En.get_file_size_of (1024 ^ 2 - 1) = Some (py "1024.0KB").
Proof. repeat split. vm_compute. discriminate. Qed.

(** ** Platform sections *)

Lemma fold_left_append (A : Type) (f : A -> str) (l : list A) (init : str) :
  fold_left (fun acc a => acc ++ f a) l init = init ++ List.concat (map f l).
Proof.
  revert init. induction l as [|a l IH]; intros init; cbn [fold_left map List.concat].
  - now rewrite app_nil_r.
  - rewrite IH. now rewrite <- app_assoc.
Qed.

Lemma card_item_parts (filename : str) (arch_info : value) (filesize : str) :
  En.card_item filename arch_info filesize =
  nl ++ Card.indent ++ Card.download_link filename ++
  nl ++ Card.indent ++ Card.caption (fmt arch_info) filesize.
Proof.
  unfold En.card_item, Card.download_link, Card.caption, Card.indent.
  repeat rewrite <- app_assoc. reflexivity.
Qed.

(** C8.  When no regular file without the [.sha256] suffix matches the
    pattern, the section is the empty string.  Otherwise it is one card:
    the opening with the icon and the platform name, then for each listed
    file, in enumeration order, a download link labelled with the bare
    file name and a caption made of the architecture label and the
    formatted size, then the closing of the card. *)
Theorem generate_platform_section_card
  (w : world) (platform_name platform_icon file_pattern : str) :
  En.generate_platform_section w platform_name platform_icon file_pattern =
  match Card.listed w file_pattern with
  | [] => []
  | _ :: _ =>
    En.card_open platform_name platform_icon ++
    List.concat (map (fun filepath =>
                   nl ++ Card.indent ++
                   Card.download_link (basename filepath) ++
                   nl ++ Card.indent ++
                   Card.caption (fmt (En.get_arch_info (basename filepath)))
                                (En.get_file_size w filepath))
                (Card.listed w file_pattern)) ++
    En.card_close
  end.
Proof.
  unfold En.generate_platform_section, Card.listed.
  destruct (filter _ (glob w file_pattern)) as [|f files] eqn:E;
    [reflexivity|].
  rewrite fold_left_append, <- app_assoc. do 3 f_equal.
  apply map_ext. intros a. apply card_item_parts.
Qed.

(** ** Substring search and replacement *)

Section Replace.

Lemma startswith_cons (a b : N) (p s : str) :
  startswith (a :: p) (b :: s) = (a =? b)%N && startswith p s.
Proof. reflexivity. Qed.

Lemma startswith_app (p s : str) : startswith p (p ++ s) = true.
Proof.
  induction p as [|a p IH]; [reflexivity|].
  cbn [app startswith]. now rewrite N.eqb_refl.
Qed.

Lemma startswith_inv (p s : str) :
  startswith p s = true -> exists r, s = p ++ r.
Proof.
  revert s. induction p as [|a p IH]; intros s H.
  - now exists s.
  - destruct s as [|b s]; [discriminate|]. cbn [startswith] in H.
    apply andb_true_iff in H as [Hab Hp]. apply N.eqb_eq in Hab as ->.
    destruct (IH _ Hp) as [r ->]. now exists r.
Qed.

Lemma contains_tail (sub : str) (c : N) (s : str) :
  contains sub (c :: s) = false ->
  startswith sub (c :: s) = false /\ contains sub s = false.
Proof.
  cbn [contains]. intros H. now apply orb_false_iff in H.
Qed.

Lemma replace_from_skip (old new p s : str) :
  replace_from (List.length p) old new (p ++ s) = replace_from 0 old new s.
Proof.
  induction p as [|a p IH]; [reflexivity|exact IH].
Qed.

(** The two equations of [replace]: at an occurrence of [old] the
    replacement is emitted and the search resumes after the occurrence;
    elsewhere one character is kept. *)
Lemma replace_here (old new s : str) :
  old <> [] -> replace old new (old ++ s) = new ++ replace old new s.
Proof.
  intros Hold. destruct old as [|a old]; [contradiction|].
  unfold replace. cbn [app replace_from].
  change (a :: old ++ s) with ((a :: old) ++ s).
  rewrite startswith_app.
  change (List.length (a :: old) - 1) with (List.length old - 0).
  rewrite Nat.sub_0_r.
  now rewrite replace_from_skip.
Qed.

Lemma replace_next (old new : str) (c : N) (s : str) :
  startswith old (c :: s) = false ->
  replace old new (c :: s) = c :: replace old new s.
Proof.
  intros H. unfold replace. cbn [replace_from]. now rewrite H.
Qed.

Lemma replace_absent (old new s : str) :
  contains old s = false -> replace old new s = s.
Proof.
  induction s as [|c s IH]; intros H; [reflexivity|].
  apply contains_tail in H as [H1 H2].
  rewrite replace_next by exact H1. now rewrite IH.
Qed.

End Replace.

(** ** Rendering a template *)

Section Placeholders.

Import Template.

(** Every token is two opening braces followed by text without one. *)
Lemma token_shape (p : placeholder) :
  exists a w,
    token p = 123%N :: 123%N :: a :: w
    /\ Forall (fun c => c <> 123%N) (a :: w).
Proof.
  destruct p; vm_compute; do 2 eexists; (split; [reflexivity|]);
    repeat constructor; discriminate.
Qed.

Lemma flat_cons (x : piece) (l : list piece) :
  flat (x :: l) = piece_text x ++ flat l.
Proof. reflexivity. Qed.

Lemma startswith_brace_free (w : str) (l : list piece) :
  Forall (fun c => c <> 123%N) w ->
  startswith w (flat l) = true -> startswith w (chars l) = true.
Proof.
  intros Hw. revert l. induction Hw as [|a w Ha Hw IH]; intros l H;
    [reflexivity|].
  destruct l as [|[c|u] l]; [discriminate| |].
  - rewrite flat_cons in H. cbn [piece_text app] in H.
    rewrite startswith_cons in H.
    apply andb_true_iff in H as [Hac H].
    cbn [chars flat_map app]. rewrite startswith_cons, Hac.
    exact (IH _ H).
  - exfalso. rewrite flat_cons in H. cbn [piece_text] in H.
    destruct (token_shape u) as (b & v & Hu & _). rewrite Hu in H.
    cbn [app] in H. rewrite startswith_cons in H.
    apply andb_true_iff in H as [Hac _].
    apply N.eqb_eq in Hac. contradiction.
Qed.

(** A token that starts at a character piece lies in character pieces
    only. *)
Lemma startswith_token_chars (p : placeholder) (c : N) (l : list piece) :
  startswith (token p) (flat (Chr c :: l)) = true ->
  startswith (token p) (chars (Chr c :: l)) = true.
Proof.
  destruct (token_shape p) as (a & w & -> & Hw).
  rewrite flat_cons. cbn [piece_text app chars flat_map].
  rewrite !startswith_cons.
  intros H. apply andb_true_iff in H as [Hc H]. rewrite Hc. cbn [andb].
  destruct l as [|[c2|u] l]; [discriminate| |].
  - rewrite flat_cons in H. cbn [piece_text app] in H.
    rewrite startswith_cons in H.
    apply andb_true_iff in H as [Hc2 H].
    cbn [flat_map app]. rewrite startswith_cons, Hc2.
    exact (@startswith_brace_free (a :: w) l Hw H).
  - exfalso. rewrite flat_cons in H. cbn [piece_text] in H.
    destruct (token_shape u) as (b & v & Hu & _). rewrite Hu in H.
    cbn [app] in H. rewrite !startswith_cons in H.
    apply andb_true_iff in H as [_ H]. apply andb_true_iff in H as [H _].
    apply N.eqb_eq in H. inversion Hw; subst. contradiction.
Qed.

(** No occurrence of a token starts inside an occurrence of another. *)
Lemma replace_over_token (p u : placeholder) (new s : str) :
  placeholder_eqb p u = false ->
  replace (token p) new (token u ++ s) = token u ++ replace (token p) new s.
Proof.
  destruct p, u; intros H; try discriminate H; reflexivity.
Qed.

Lemma chars_without (p : placeholder) (l : list piece) :
  chars (without p l) = chars l.
Proof.
  induction l as [|[c|u] l IH]; [reflexivity| |].
  - cbn [without filter chars flat_map app]. f_equal. exact IH.
  - cbn [without filter]. destruct (negb (placeholder_eqb p u)); exact IH.
Qed.

(** Deleting one token from the text of pieces whose characters do not
    spell it removes the pieces of that token and nothing else. *)
Lemma replace_flat (p : placeholder) (l : list piece) :
  contains (token p) (chars l) = false ->
  replace (token p) [] (flat l) = flat (without p l).
Proof.
  induction l as [|[c|u] l IH]; intros H; [reflexivity| |].
  - assert (Hs : startswith (token p) (flat (Chr c :: l)) = false).
    { destruct (startswith (token p) (flat (Chr c :: l))) eqn:E;
        [|reflexivity].
      apply startswith_token_chars in E.
      cbn [chars flat_map app] in H, E. cbn [contains] in H.
      rewrite E in H. discriminate. }
    cbn [chars flat_map app] in H. apply contains_tail in H as [_ H].
    rewrite flat_cons in *. cbn [piece_text app] in *.
    rewrite replace_next by exact Hs. rewrite (IH H). reflexivity.
  - cbn [chars flat_map app] in H. rewrite flat_cons. cbn [piece_text].
    cbn [without filter]. destruct (placeholder_eqb p u) eqn:E.
    + assert (p = u) as -> by (destruct p, u; try discriminate; reflexivity).
      rewrite replace_here.
      * cbn [negb app]. exact (IH H).
      * destruct u; discriminate.
    + rewrite replace_over_token by exact E. cbn [negb].
      rewrite flat_cons. cbn [piece_text]. f_equal. exact (IH H).
Qed.

Lemma flat_without_all (l : list piece) :
  flat (without Checksums (without DownloadSections
          (without ReleaseName (without TagName l)))) = chars l.
Proof.
  induction l as [|[c|u] l IH]; [reflexivity| |].
  - cbn [without filter]. rewrite flat_cons. cbn [piece_text app].
    cbn [chars flat_map app]. f_equal. exact IH.
  - destruct u; exact IH.
Qed.

Lemma placeholder_at_some (s : str) (p : placeholder) :
  placeholder_at s = Some p -> exists r, s = token p ++ r.
Proof.
  intros H. apply find_some in H as [_ H]. exact (startswith_inv _ _ H).
Qed.

Lemma flat_tokenize_from (k : nat) (s : str) :
  flat (tokenize_from k s) = skipn k s.
Proof.
  revert k. induction s as [|c s IH]; intros k.
  - now destruct k.
  - destruct k as [|k]; cbn [tokenize_from skipn]; [|apply IH].
    destruct (placeholder_at (c :: s)) as [p|] eqn:E.
    + rewrite flat_cons, IH. cbn [piece_text].
      apply placeholder_at_some in E as [r E].
      destruct (token_shape p) as (a & w & Hp & _). rewrite Hp in *.
      cbn [app] in E. injection E as -> ->.
      cbn [List.length Nat.sub].
      change (123%N :: a :: w ++ r) with ((123%N :: a :: w) ++ r).
      change (S (S (List.length w))) with (List.length (123%N :: a :: w)).
      rewrite skipn_app, skipn_all, Nat.sub_diag. reflexivity.
    + rewrite flat_cons, IH. reflexivity.
Qed.

Lemma flat_tokenize (s : str) : flat (tokenize s) = s.
Proof. exact (flat_tokenize_from 0 s). Qed.

End Placeholders.

Section Render.

Import Template.

Lemma render_tokens (content a b c d : str) :
  En.render content a b c d
  = replace (token Checksums) d
      (replace (token DownloadSections) c
         (replace (token ReleaseName) b
            (replace (token TagName) a content))).
Proof. reflexivity. Qed.

(** C4 (amended).  A template is the text of its pieces, and deleting
    the placeholders keeps the character pieces.  When the text that is
    left after the deletion does not itself contain one of the four
    tokens, rendering with four empty contents yields exactly that text:
    the occurrences of the four tokens are deleted and every other
    character, other brace tokens included, is unchanged.  Replacing a
    token that is absent changes nothing, so a template without
    placeholder tokens is rendered as itself whatever the contents. *)
Theorem render_empty_deletes (template : str) :
  flat (tokenize template) = template
  /\ ((forall p, contains (token p) (delete_placeholders template) = false) ->
      En.render template [] [] [] [] = delete_placeholders template)
  /\ (forall (p : placeholder) (new : str),
        contains (token p) template = false ->
        replace (token p) new template = template)
  /\ (forall tag_name release_name download_sections checksums : str,
        (forall p, contains (token p) template = false) ->
        En.render template tag_name release_name download_sections checksums
        = template).
Proof.
  split; [apply flat_tokenize|]. split; [|split].
  - intros H. unfold delete_placeholders in *. rewrite render_tokens.
    set (l := tokenize template) in *.
    rewrite <- (flat_tokenize template). fold l.
    rewrite (replace_flat TagName l) by apply H.
    rewrite replace_flat by (rewrite chars_without; apply H).
    rewrite replace_flat by (rewrite !chars_without; apply H).
    rewrite replace_flat by (rewrite !chars_without; apply H).
    apply flat_without_all.
  - intros p new H. apply replace_absent, H.
  - intros tag_name release_name download_sections checksums H.
    rewrite render_tokens.
    rewrite (@replace_absent _ tag_name _ (H TagName)).
    rewrite (@replace_absent _ release_name _ (H ReleaseName)).
    rewrite (@replace_absent _ download_sections _ (H DownloadSections)).
    apply (@replace_absent _ checksums _ (H Checksums)).
Qed.

(** C10.  The four replacements are applied one after the other to the
    whole content, in the order tag name, release name, download
    sections, checksums; a value that an earlier replacement has put in
    is rewritten by a later one: with the tag name "{{CHECKSUMS}}" the
    page shows the checksum section where the tag name stands. *)
Theorem render_sequential
  (content tag_name release_name download_sections checksums : str) :
  En.render content tag_name release_name download_sections checksums
  = replace (py "{{CHECKSUMS}}") checksums
      (replace (py "{{DOWNLOAD_SECTIONS}}") download_sections
         (replace (py "{{RELEASE_NAME}}") release_name
            (replace (py "{{TAG_NAME}}") tag_name content)))
  /\ En.render (py "<p>{{TAG_NAME}}</p>") (py "{{CHECKSUMS}}") release_name
       download_sections checksums
     = py "<p>" ++ checksums ++ py "</p>".
Proof.
  split; [reflexivity|]. unfold En.render.
  change (replace (py "{{TAG_NAME}}") (py "{{CHECKSUMS}}")
            (py "<p>{{TAG_NAME}}</p>"))
    with (py "<p>" ++ py "{{CHECKSUMS}}" ++ py "</p>").
  rewrite (@replace_absent (py "{{RELEASE_NAME}}")) by reflexivity.
  rewrite (@replace_absent (py "{{DOWNLOAD_SECTIONS}}")) by reflexivity.
  change (py "<p>") with [60; 112; 62]%N. cbn [app].
  rewrite !replace_next by reflexivity.
  rewrite replace_here by discriminate.
  rewrite replace_absent by reflexivity. reflexivity.
Qed.

End Render.

Lemma render_empty_deletes_witness :
  En.render
    (py "<h1>{{RELEASE_NAME}} {{TAG_NAME}}</h1>{{DOWNLOAD_SECTIONS}}{{CHECKSUMS}}{{OTHER}}")
    [] [] [] []
  = py "<h1> </h1>{{OTHER}}"
  /\ En.render (py "<b>{{OTHER}}</b>") (py "v1") (py "One") [] []
     = py "<b>{{OTHER}}</b>".
Proof.
  split.
  - apply (proj1 (proj2 (render_empty_deletes
      (py "<h1>{{RELEASE_NAME}} {{TAG_NAME}}</h1>{{DOWNLOAD_SECTIONS}}{{CHECKSUMS}}{{OTHER}}")))).
    intros []; reflexivity.
  - apply (proj2 (proj2 (proj2 (render_empty_deletes (py "<b>{{OTHER}}</b>"))))).
    intros []; reflexivity.
Defined.

(** Each token occurs at most once in the template below, yet rendering
    it with empty contents deletes more than the one token it contains:
    deleting the tag token joins the text around it into the checksum
    token, which the last replacement deletes as well. *)
Lemma render_empty_deletes_counterexample :
  (forall p, count (Template.token p) (py "{{CHECK{{TAG_NAME}}SUMS}}") <= 1)
  /\ Template.delete_placeholders (py "{{CHECK{{TAG_NAME}}SUMS}}")
     = py "{{CHECKSUMS}}"
  /\ En.render (py "{{CHECK{{TAG_NAME}}SUMS}}") [] [] [] [] = []
  /\ En.render (py "{{CHECK{{TAG_NAME}}SUMS}}") [] [] [] []
     <> Template.delete_placeholders (py "{{CHECK{{TAG_NAME}}SUMS}}").
Proof.
  split; [intros []; vm_compute; lia|].
  repeat split. vm_compute. discriminate.
Qed.

(** ** Checksum section *)

Section Tokens.

Import Checksum.

Lemma split_from_run (cur : str) (s : str) :
  cur <> [] -> hd_error (split_from cur s) = Some (rev cur ++ word s).
Proof.
  revert cur. induction s as [|c s IH]; intros cur Hcur.
  - destruct cur; [contradiction|]. cbn [split_from word hd_error].
    now rewrite app_nil_r.
  - cbn [split_from word]. destruct (isspace c).
    + destruct cur; [contradiction|]. cbn [hd_error]. now rewrite app_nil_r.
    + rewrite IH by discriminate. cbn [rev]. now rewrite <- app_assoc.
Qed.

(** The first element of [s.split()] is the first token of [s]. *)
Lemma split_first_token (s : str) : hd_error (split s) = first_token s.
Proof.
  unfold split, first_token. induction s as [|c s IH]; [reflexivity|].
  cbn [split_from lstrip]. destruct (isspace c) eqn:E; [exact IH|].
  rewrite split_from_run by discriminate. cbn [word rev app]. now rewrite E.
Qed.

Lemma lstrip_snoc (a : str) (c : N) :
  lstrip (a ++ [c]) =
  if forallb isspace a then (if isspace c then [] else [c])
  else lstrip a ++ [c].
Proof.
  induction a as [|b a IH]; [reflexivity|].
  cbn [app lstrip forallb]. destruct (isspace b); [exact IH|reflexivity].
Qed.

Lemma forallb_rev (f : N -> bool) (l : str) :
  forallb f (rev l) = forallb f l.
Proof.
  induction l as [|a l IH]; [reflexivity|].
  cbn [rev forallb]. rewrite forallb_app, IH. cbn [forallb].
  rewrite andb_true_r. apply andb_comm.
Qed.

Lemma lstrip_all_space (s : str) : forallb isspace s = true -> lstrip s = [].
Proof.
  induction s as [|c s IH]; [reflexivity|]. cbn [forallb lstrip].
  destruct (isspace c); [exact IH|discriminate].
Qed.

(** Stripping on the right, one character at a time. *)
Lemma rstrip_cons (c : N) (s : str) :
  rev (lstrip (rev (c :: s))) =
  if isspace c && forallb isspace s then []
  else c :: rev (lstrip (rev s)).
Proof.
  cbn [rev]. rewrite lstrip_snoc, forallb_rev.
  destruct (forallb isspace s) eqn:E.
  - rewrite andb_true_r. destruct (isspace c); [reflexivity|].
    rewrite lstrip_all_space by (rewrite forallb_rev; exact E). reflexivity.
  - rewrite andb_false_r, rev_app_distr. reflexivity.
Qed.

Lemma first_token_all_space (s : str) :
  forallb isspace s = true -> first_token s = None.
Proof.
  intros H. unfold first_token. now rewrite lstrip_all_space.
Qed.

Lemma first_token_space (c : N) (s : str) :
  isspace c = true -> first_token (c :: s) = first_token s.
Proof. intros H. unfold first_token. cbn [lstrip]. now rewrite H. Qed.

Lemma first_token_start (c : N) (s : str) :
  isspace c = false -> first_token (c :: s) = Some (c :: word s).
Proof. intros H. unfold first_token. cbn [lstrip]. rewrite H. cbn [word]. now rewrite H. Qed.

Lemma word_rstrip (s : str) : word (rev (lstrip (rev s))) = word s.
Proof.
  induction s as [|c s IH]; [reflexivity|].
  rewrite rstrip_cons. cbn [word].
  destruct (isspace c) eqn:E.
  - destruct (forallb isspace s); cbn [andb word]; [reflexivity|].
    now rewrite E.
  - cbn [andb word]. rewrite E. now rewrite IH.
Qed.

Lemma first_token_rstrip (s : str) :
  first_token (rev (lstrip (rev s))) = first_token s.
Proof.
  induction s as [|c s IH]; [reflexivity|].
  rewrite rstrip_cons. destruct (isspace c) eqn:E.
  - rewrite (@first_token_space c _ E).
    destruct (forallb isspace s) eqn:F; cbn [andb].
    + now rewrite (@first_token_all_space s F).
    + now rewrite (@first_token_space c _ E).
  - cbn [andb]. rewrite !first_token_start by exact E.
    now rewrite word_rstrip.
Qed.

Lemma first_token_lstrip (s : str) : first_token (lstrip s) = first_token s.
Proof.
  induction s as [|c s IH]; [reflexivity|].
  cbn [lstrip]. destruct (isspace c) eqn:E; [|reflexivity].
  now rewrite (@first_token_space c _ E).
Qed.

(** [s.strip().split()] begins with the first token of [s]. *)
Lemma split_strip_first_token (s : str) :
  hd_error (split (strip s)) = first_token s.
Proof.
  rewrite split_first_token. unfold strip.
  now rewrite first_token_rstrip, first_token_lstrip.
Qed.

Lemma word_first_line (s : str) : word (first_line s) = word s.
Proof.
  induction s as [|c s IH]; [reflexivity|].
  cbn [first_line word]. destruct (N.eqb_spec c 10) as [->|Hc];
    [reflexivity|].
  cbn [word]. destruct (isspace c); [reflexivity|now rewrite IH].
Qed.

(** A token on the first line is the first token of the text. *)
Lemma first_token_first_line (s : str) (h : str) :
  first_token (first_line s) = Some h -> first_token s = Some h.
Proof.
  induction s as [|c s IH]; [discriminate|].
  cbn [first_line]. destruct (N.eqb_spec c 10) as [->|Hc]; [discriminate|].
  destruct (isspace c) eqn:E.
  - rewrite !(@first_token_space c _ E). exact IH.
  - rewrite !first_token_start by exact E. now rewrite word_first_line.
Qed.

End Tokens.

Section ChecksumSection.

Import Checksum.

Variable w : world.

Lemma read_checksum_first_token (sha_file : str) :
  En.read_checksum w sha_file =
  match w_read w LocaleDefault sha_file with
  | inl text => first_token text
  | inr _ => None
  end.
Proof.
  unfold En.read_checksum. destruct (w_read w LocaleDefault sha_file) as [text|e];
    [|reflexivity].
  rewrite <- split_strip_first_token. now destruct (split (strip text)).
Qed.

Lemma checksums_fold (l : list str) (init : str) :
  fold_left
    (fun checksums sha_file =>
       let binary_name := replace (py ".sha256") [] sha_file in
       if isfile w binary_name then
         match En.read_checksum w sha_file with
         | Some checksum =>
           checksums ++ En.checksum_item binary_name checksum
         | None => checksums
         end
       else checksums) l init
  = init ++ List.concat (map (entry w) l).
Proof.
  revert init. induction l as [|f l IH]; intros init;
    cbn [fold_left map List.concat]; [now rewrite app_nil_r|].
  rewrite IH. unfold entry at 2. cbv zeta.
  rewrite read_checksum_first_token.
  destruct (isfile w (replace (py ".sha256") [] f));
    [|now rewrite app_nil_l].
  destruct (w_read w LocaleDefault f) as [text|e]; [|now rewrite app_nil_l].
  destruct (first_token text); [now rewrite app_assoc|now rewrite app_nil_l].
Qed.

(** C6 (amended).  The checksum section is the concatenation, in
    enumeration order, of what each checksum file contributes by itself:
    when the artifact named after it is a regular file and the file can be
    read, a block whose hash is the first whitespace-delimited token of
    the content of the file, and nothing when the file cannot be read or
    holds no token.  So a failure on one file leaves the entries of the
    others in place.  The hash is the first token of what
    [read().strip().split()] gives, and it is the first token of the
    first line whenever that line holds a token. *)
Theorem generate_checksums_section_entries :
  En.generate_checksums_section w
  = List.concat (map (entry w) (glob w (py "*.sha256")))
  /\ (forall text, hd_error (split (strip text)) = first_token text)
  /\ (forall text h,
        first_token (first_line text) = Some h -> first_token text = Some h).
Proof.
  split; [|split].
  - unfold En.generate_checksums_section.
    destruct (glob w (py "*.sha256")) as [|f l] eqn:E; [reflexivity|].
    now rewrite checksums_fold.
  - apply split_strip_first_token.
  - apply first_token_first_line.
Qed.

End ChecksumSection.

Lemma generate_checksums_section_entries_witness :
  Checksum.first_token (py "abcd1234 amo_linux_amd64" ++ nl ++ py "more")
  = Some (py "abcd1234").
Proof.
  apply (proj2 (proj2 (generate_checksums_section_entries
                         (Sample.world_of Sample.release_dir)))).
  reflexivity.
Defined.

(** The first line of the checksum file of [amo_linux_amd64] is blank,
    so it holds no token, yet a hash is rendered for the file: the first
    token of its second line.  The unreadable and the empty checksum
    file are left out, and the last one is rendered. *)
Lemma generate_checksums_section_entries_counterexample :
  let w := Sample.world_of Checksum.blank_line_dir in
  isfile w (py "amo_linux_amd64") = true
  /\ w_read w LocaleDefault (py "amo_linux_amd64.sha256")
     = inl (nl ++ py "abcd1234  amo_linux_amd64" ++ nl)
  /\ Checksum.first_token
       (Checksum.first_line (nl ++ py "abcd1234  amo_linux_amd64" ++ nl))
     = None
  /\ En.generate_checksums_section w
     = En.checksum_item (py "amo_linux_amd64") (py "abcd1234") ++
       En.checksum_item (py "amo_darwin_amd64") (py "ef56").
Proof. repeat split. Qed.

(** C5.  The artifact [amo_linux_amd64.sha256sum] and its checksum file
    [amo_linux_amd64.sha256sum.sha256] are both present.  Stripping the
    suffix gives the name of the artifact, but the script removes every
    [.sha256] of the name, looks for [amo_linux_amd64sum], does not find
    it and leaves the entry out. *)
Theorem checksum_candidate_inner_suffix :
  let w := Sample.world_of Checksum.inner_suffix_dir in
  let sha_file := py "amo_linux_amd64.sha256sum.sha256" in
  glob w (py "*.sha256") = [sha_file]
  /\ Checksum.strip_suffix (py ".sha256") sha_file
     = py "amo_linux_amd64.sha256sum"
  /\ isfile w (Checksum.strip_suffix (py ".sha256") sha_file) = true
  /\ replace (py ".sha256") [] sha_file = py "amo_linux_amd64sum"
  /\ isfile w (replace (py ".sha256") [] sha_file) = false
  /\ En.generate_checksums_section w = [].
Proof. repeat split. Qed.

(** ** The two scripts and the generic generator *)

Section Locales.

Variable w : world.

Lemma bind_ret (A B : Type) (a : A) (k : A -> prog B) : bind (ret a) k = k a.
Proof. unfold bind, ret. now destruct (k a). Qed.

Lemma en_get_arch_info (filename : str) :
  En.get_arch_info filename = Generic.get_arch_info Generic.en filename.
Proof.
  unfold En.get_arch_info, En.arch_chain, Generic.get_arch_info. cbv zeta.
  repeat match goal with
  | |- context [contains ?a ?b] => destruct (contains a b)
  end; reflexivity.
Qed.

Lemma zh_get_arch_info (filename : str) :
  Zh.get_arch_info filename = Generic.get_arch_info Generic.zh filename.
Proof.
  unfold Zh.get_arch_info, Zh.arch_chain, Generic.get_arch_info. cbv zeta.
  repeat match goal with
  | |- context [contains ?a ?b] => destruct (contains a b)
  end; reflexivity.
Qed.

Lemma en_get_file_size (filepath : str) :
  En.get_file_size w filepath = Generic.get_file_size Generic.en w filepath.
Proof. unfold En.get_file_size, Generic.get_file_size. reflexivity. Qed.

Lemma zh_get_file_size_of (size : Z) :
  Zh.get_file_size_of size = En.get_file_size_of size.
Proof. unfold Zh.get_file_size_of, En.get_file_size_of. reflexivity. Qed.

Lemma zh_get_file_size (filepath : str) :
  Zh.get_file_size w filepath = Generic.get_file_size Generic.zh w filepath.
Proof.
  unfold Zh.get_file_size, Generic.get_file_size.
  destruct (getsize w filepath) as [size|]; [|reflexivity].
  now rewrite zh_get_file_size_of.
Qed.

Lemma zh_card_open (name icon : str) :
  Zh.card_open name icon = En.card_open name icon.
Proof. unfold Zh.card_open, En.card_open. reflexivity. Qed.

Lemma zh_card_item (filename : str) (arch_info : value) (filesize : str) :
  Zh.card_item filename arch_info filesize
  = En.card_item filename arch_info filesize.
Proof. unfold Zh.card_item, En.card_item. reflexivity. Qed.

Lemma zh_card_close : Zh.card_close = En.card_close.
Proof. unfold Zh.card_close, En.card_close. reflexivity. Qed.

Lemma en_generate_platform_section (name icon pattern : str) :
  En.generate_platform_section w name icon pattern
  = Generic.generate_platform_section Generic.en w name icon pattern.
Proof.
  unfold En.generate_platform_section, Generic.generate_platform_section,
    Card.listed.
  destruct (filter _ (glob w pattern)) as [|f files]; [reflexivity|].
  rewrite fold_left_append, <- app_assoc.
  apply f_equal, (f_equal (fun l => List.concat l ++ En.card_close)).
  apply map_ext. intros a.
  now rewrite en_get_arch_info, en_get_file_size.
Qed.

Lemma zh_generate_platform_section (name icon pattern : str) :
  Zh.generate_platform_section w name icon pattern
  = Generic.generate_platform_section Generic.zh w name icon pattern.
Proof.
  unfold Zh.generate_platform_section, Generic.generate_platform_section,
    Card.listed.
  destruct (filter _ (glob w pattern)) as [|f files]; [reflexivity|].
  rewrite fold_left_append, <- app_assoc, zh_card_open, zh_card_close.
  apply f_equal, (f_equal (fun l => List.concat l ++ En.card_close)).
  apply map_ext. intros a.
  now rewrite zh_card_item, zh_get_arch_info, zh_get_file_size.
Qed.

Lemma zh_generate_checksums_section :
  Zh.generate_checksums_section w = En.generate_checksums_section w.
Proof.
  unfold Zh.generate_checksums_section, En.generate_checksums_section.
  reflexivity.
Qed.

Lemma zh_render (content tag_name release_name sections checksums : str) :
  Zh.render content tag_name release_name sections checksums
  = En.render content tag_name release_name sections checksums.
Proof. unfold Zh.render, En.render. reflexivity. Qed.

End Locales.

Section Scripts.

Variable w : world.

Lemma bind_print (A : Type) (msg : str) (m : prog A) :
  bind (print msg) (fun _ => m) = (Print msg :: fst m, snd m).
Proof. unfold bind, print. now destruct m. Qed.

Lemma bind_raise (A B : Type) (e : exn) (k : A -> prog B) :
  bind (raise e) k = ([], Raise e).
Proof. reflexivity. Qed.

Lemma bind_event (A : Type) (ev : event) (m : prog A) :
  bind ([ev], Ret tt) (fun _ => m) = (ev :: fst m, snd m).
Proof. unfold bind. now destruct m. Qed.

Lemma bind_assoc (A B C : Type) (m : prog A) (k : A -> prog B)
  (h : B -> prog C) :
  bind (bind m k) h = bind m (fun a => bind (k a) h).
Proof.
  destruct m as [t [a|e|c]]; cbn [bind]; try reflexivity.
  destruct (k a) as [t' [b|e|c]]; cbn [bind]; try reflexivity.
  destruct (h b) as [t'' r]. now rewrite app_assoc.
Qed.

(** One step of the copy loop of the default script, and of the second
    script: they perform the same copy and end alike, and write no
    file. *)
Lemma copy_scripts_alike (l1 l2 : list (str * str)) :
  map fst l1 = map fst l2 ->
  Trace.copied (fst (En.copy_scripts w l1))
  = Trace.copied (fst (Zh.copy_scripts w l2))
  /\ snd (En.copy_scripts w l1) = snd (Zh.copy_scripts w l2)
  /\ Trace.written (fst (En.copy_scripts w l1)) = []
  /\ Trace.written (fst (Zh.copy_scripts w l2)) = [].
Proof.
  revert l2. induction l1 as [|[n d] l1 IH]; intros [|[n2 d2] l2] H;
    try discriminate H; [repeat split|].
  cbn [map fst] in H. injection H as <- H.
  destruct (IH _ H) as (IH1 & IH2 & IH3 & IH4).
  cbn [En.copy_scripts Zh.copy_scripts].
  destruct (w_src_exists w n).
  - unfold copy2. destruct (w_copy2 w n) as [e|].
    + rewrite !bind_raise. repeat split.
    + rewrite !bind_assoc, !bind_event, !bind_print.
      cbn [fst snd Trace.copied Trace.written flat_map app].
      fold (Trace.copied (fst (En.copy_scripts w l1))).
      fold (Trace.copied (fst (Zh.copy_scripts w l2))).
      fold (Trace.written (fst (En.copy_scripts w l1))).
      fold (Trace.written (fst (Zh.copy_scripts w l2))).
      rewrite IH1, IH2, IH3, IH4. repeat split.
  - rewrite !bind_print.
    cbn [fst snd Trace.copied Trace.written flat_map app].
    fold (Trace.copied (fst (En.copy_scripts w l1))).
    fold (Trace.copied (fst (Zh.copy_scripts w l2))).
    fold (Trace.written (fst (En.copy_scripts w l1))).
    fold (Trace.written (fst (Zh.copy_scripts w l2))).
    rewrite IH1, IH2, IH3, IH4. repeat split.
Qed.

Lemma copy_installation_scripts_alike :
  Trace.copied (fst (En.copy_installation_scripts w))
  = Trace.copied (fst (Zh.copy_installation_scripts w))
  /\ snd (En.copy_installation_scripts w)
     = snd (Zh.copy_installation_scripts w)
  /\ Trace.written (fst (En.copy_installation_scripts w)) = []
  /\ Trace.written (fst (Zh.copy_installation_scripts w)) = [].
Proof. apply copy_scripts_alike. vm_compute. reflexivity. Qed.

(** When no copy fails the loop comes to its end. *)
Lemma copy_scripts_returns (l : list (str * str)) :
  (forall name, w_src_exists w name = true -> w_copy2 w name = None) ->
  snd (En.copy_scripts w l) = Ret tt.
Proof.
  intros H. induction l as [|[n d] l IH]; [reflexivity|].
  cbn [En.copy_scripts].
  destruct (w_src_exists w n) eqn:E.
  - unfold copy2. rewrite (H _ E).
    rewrite !bind_assoc, !bind_event, !bind_print. exact IH.
  - rewrite !bind_print. exact IH.
Qed.

End Scripts.

(** ** Runs of the scripts *)

Section Main.

Variable w : world.

(** The run of the default script on three arguments. *)
Lemma en_main_args (prog_name template_file tag_name release_name : str) :
  En.main w [prog_name; template_file; tag_name; release_name] =
  match w_read w LocaleDefault template_file with
  | inl content =>
    write w LocaleDefault (py "index.html")
      (Generic.page Generic.en w content tag_name release_name) ;;;
    print (py "✅ Generated index.html successfully") ;;;
    En.copy_installation_scripts w
  | inr FileNotFoundError =>
    ([Print (py "Error: Template file " ++ template_file ++
             py " not found")], SysExit 1%Z)
  | inr e => ([], Raise e)
  end.
Proof.
  unfold En.main. cbn [List.length Nat.eqb negb nth].
  destruct (w_read w LocaleDefault template_file) as [content|e].
  - rewrite bind_ret. unfold Generic.page, Generic.download_sections.
    now rewrite !en_generate_platform_section.
  - destruct e; reflexivity.
Qed.

(** The run of the second script on three arguments. *)
Lemma zh_main_args (prog_name template_file tag_name release_name : str) :
  Zh.main w [prog_name; template_file; tag_name; release_name] =
  match w_read w Utf8 template_file with
  | inl content =>
    mkdir_exist_ok w (py "zh") ;;;
    write w Utf8 (py "zh" ++ py "/" ++ py "index.html")
      (Generic.page Generic.zh w content tag_name release_name) ;;;
    print (py "✅ 成功生成 " ++ py "zh" ++ py "/" ++ py "index.html") ;;;
    Zh.copy_installation_scripts w
  | inr FileNotFoundError =>
    ([Print (py "错误: 模板文件 " ++ template_file ++ py " 未找到")],
     SysExit 1%Z)
  | inr e => ([], Raise e)
  end.
Proof.
  unfold Zh.main. cbn [List.length Nat.eqb negb nth].
  destruct (w_read w Utf8 template_file) as [content|e].
  - rewrite bind_ret. cbv zeta. unfold Generic.page, Generic.download_sections.
    rewrite !zh_generate_platform_section, zh_generate_checksums_section.
    now rewrite zh_render.
  - destruct e; reflexivity.
Qed.


End Main.

Section Outcomes.

Variable w : world.
Variables prog_name template_file tag_name release_name : str.

Let argv : list str := [prog_name; template_file; tag_name; release_name].
Let page : str -> str :=
  fun content => Generic.page Generic.en w content tag_name release_name.


End Outcomes.



Section TwoLocales.

Variable w : world.
Variables prog_en prog_zh template_file tag_name release_name : str.

Let argv_en : list str := [prog_en; template_file; tag_name; release_name].
Let argv_zh : list str := [prog_zh; template_file; tag_name; release_name].
Let page (L : Generic.microcopy) (content : str) : str :=
  Generic.page L w content tag_name release_name.

(** C9 (amended).  Both pages are the page of one generator that takes
    the microcopy (the sentinel for an unknown value and the label of a
    64-bit build) as its only parameter: patterns, filtering, order,
    checksums and replacements are the same.  When both scripts read the
    same template text, the directory [zh] can be made or is there, and
    both pages can be written, the default script writes its page to
    [index.html] and nothing else, the second script writes its page to
    [zh/index.html] and nothing else, both copy the same installer
    scripts to the same places, and both end alike.  With a wrong
    argument count, and with a template that both fail to read in the
    same way, both write nothing and end alike. *)
Theorem zh_matches_default :
  (forall content,
     w_read w LocaleDefault template_file = inl content ->
     w_read w Utf8 template_file = inl content ->
     w_mkdir w (py "zh") = None \/ is_dir w (py "zh") = true ->
     w_write w LocaleDefault (py "index.html") (page Generic.en content)
     = Written ->
     w_write w Utf8 (py "zh/index.html") (page Generic.zh content)
     = Written ->
     Trace.written (fst (En.main w argv_en))
     = [(py "index.html", page Generic.en content)]
     /\ Trace.written (fst (Zh.main w argv_zh))
        = [(py "zh/index.html", page Generic.zh content)]
     /\ Trace.copied (fst (En.main w argv_en))
        = Trace.copied (fst (Zh.main w argv_zh))
     /\ snd (En.main w argv_en) = snd (Zh.main w argv_zh))
  /\ (forall e,
        w_read w LocaleDefault template_file = inr e ->
        w_read w Utf8 template_file = inr e ->
        Trace.written (fst (En.main w argv_en)) = []
        /\ Trace.written (fst (Zh.main w argv_zh)) = []
        /\ snd (En.main w argv_en) = snd (Zh.main w argv_zh))
  /\ (forall args : list str,
        List.length args <> 4 ->
        Trace.written (fst (En.main w args)) = []
        /\ Trace.written (fst (Zh.main w args)) = []
        /\ snd (En.main w args) = snd (Zh.main w args)).
Proof.
  subst argv_en argv_zh page. cbv beta.
  rewrite en_main_args, zh_main_args.
  destruct (copy_installation_scripts_alike w) as (Hc & Hs & Hw1 & Hw2).
  split; [|split].
  - intros content -> -> Hdir Hwe Hwz.
    change (py "zh" ++ py "/" ++ py "index.html") with (py "zh/index.html").
    unfold write. rewrite Hwe, Hwz.
    rewrite !bind_event, !bind_print.
    assert (Hm : mkdir_exist_ok w (py "zh") = ([MkDir (py "zh")], Ret tt)
                 \/ mkdir_exist_ok w (py "zh") = ([], Ret tt)).
    { unfold mkdir_exist_ok. destruct Hdir as [->| ->]; [now left|].
      destruct (w_mkdir w (py "zh")); [now right|now left]. }
    destruct Hm as [-> | ->].
    + rewrite bind_event.
      cbn [fst snd Trace.written Trace.copied flat_map app].
      fold (Trace.written (fst (En.copy_installation_scripts w))).
      fold (Trace.written (fst (Zh.copy_installation_scripts w))).
      fold (Trace.copied (fst (En.copy_installation_scripts w))).
      fold (Trace.copied (fst (Zh.copy_installation_scripts w))).
      rewrite Hw1, Hw2, Hc, Hs. repeat split.
    + fold (@ret unit tt). rewrite bind_ret.
      cbn [fst snd Trace.written Trace.copied flat_map app].
      fold (Trace.written (fst (En.copy_installation_scripts w))).
      fold (Trace.written (fst (Zh.copy_installation_scripts w))).
      fold (Trace.copied (fst (En.copy_installation_scripts w))).
      fold (Trace.copied (fst (Zh.copy_installation_scripts w))).
      rewrite Hw1, Hw2, Hc, Hs. repeat split.
  - intros e -> ->. destruct e; repeat split.
  - intros args Hlen. unfold En.main, Zh.main.
    destruct (Nat.eqb_spec (List.length args) 4); [contradiction|].
    cbn [negb]. rewrite !bind_print. unfold sys_exit.
    cbn [fst snd Trace.written flat_map app]. repeat split.
Qed.

End TwoLocales.

Lemma zh_matches_default_witness :
  Trace.written (fst (Zh.main (Sample.world_of Sample.release_dir)
                        Sample.release_argv))
  = [(py "zh/index.html",
      Generic.page Generic.zh (Sample.world_of Sample.release_dir)
        (py "<h1>{{RELEASE_NAME}} {{TAG_NAME}}</h1>{{DOWNLOAD_SECTIONS}}{{CHECKSUMS}}")
        (py "v1.0") (py "First Release"))].
Proof.
  refine (proj1 (proj2 (proj1
    (@zh_matches_default (Sample.world_of Sample.release_dir)
       (py "generate-download-page.py") (py "generate-download-page.py")
       (py "template.html") (py "v1.0") (py "First Release"))
    (py "<h1>{{RELEASE_NAME}} {{TAG_NAME}}</h1>{{DOWNLOAD_SECTIONS}}{{CHECKSUMS}}")
    _ _ _ _ _))).
  - vm_compute. reflexivity.
  - vm_compute. reflexivity.
  - left. reflexivity.
  - reflexivity.
  - reflexivity.
Defined.

(** In a directory that holds a regular file named [zh] the default
    script writes its page and returns, and the second script stops at
    the creation of the directory with an exception and writes no page. *)
Lemma zh_matches_default_counterexample :
  let w := Sample.world_of Trace.zh_file_dir in
  snd (En.main w Sample.release_argv) = Ret tt
  /\ List.length (Trace.written (fst (En.main w Sample.release_argv))) = 1
  /\ Zh.main w Sample.release_argv = ([], Raise FileExistsError).
Proof. vm_compute. repeat split. Qed.

(** * Further properties *)

(** ** Sizes that are whole multiples of a unit *)

Section WholeSizes.

Local Open Scope Z_scope.

Lemma round_half_even_multiple (a b : Z) :
  0 < b -> round_half_even (a * b) b = a.
Proof.
  intros Hb. unfold round_half_even.
  rewrite Z.mod_mul, Z.div_mul by lia.
  destruct (Z.ltb_spec (2 * 0) b); [reflexivity|lia].
Qed.

Lemma unit_rank_multiple (k : Z) (j : nat) :
  1 <= k < 1024 -> (j <= 4)%nat ->
  SizeSpec.unit_rank (k * 1024 ^ Z.of_nat j) = j.
Proof.
  intros Hk Hj. unfold SizeSpec.unit_rank.
  assert (Hc : (j = 0 \/ j = 1 \/ j = 2 \/ j = 3 \/ j = 4)%nat) by lia.
  change (1024 ^ 1) with 1024. change (1024 ^ 2) with 1048576.
  change (1024 ^ 3) with 1073741824. change (1024 ^ 4) with 1099511627776.
  destruct Hc as [-> | [-> | [-> | [-> | ->]]]];
    [change (1024 ^ Z.of_nat 0) with 1
    | change (1024 ^ Z.of_nat 1) with 1024
    | change (1024 ^ Z.of_nat 2) with 1048576
    | change (1024 ^ Z.of_nat 3) with 1073741824
    | change (1024 ^ Z.of_nat 4) with 1099511627776];
    repeat match goal with
    | |- context [?a <? ?b] => destruct (Z.ltb_spec a b); try lia
    end; reflexivity.
Qed.

(** X1.  A byte count that is a whole multiple [k * 1024 ^ j] of one of
    the five units, with [1 <= k < 1024], is printed as [k], the decimal
    [.0] and that unit; a count below 1024 is printed as that count of
    bytes. *)
Theorem get_file_size_of_whole (k : Z) (j : nat) :
  0 <= k < 1024 -> (j <= 4)%nat -> (1 <= k \/ j = 0%nat) ->
  exists unit,
    nth_error SizeSpec.all_units j = Some unit
    /\ En.get_file_size_of (k * 1024 ^ Z.of_nat j)
       = Some (digits k ++ py ".0" ++ unit).
Proof.
  intros Hk Hj Hk1.
  assert (Hp : 1 <= 1024 ^ Z.of_nat j <= 1024 ^ 4).
  { split; [apply Z.pow_le_mono_r with (b := 0); lia
           |apply Z.pow_le_mono_r; lia]. }
  change (1024 ^ 4) with 1099511627776 in Hp.
  set (n := k * 1024 ^ Z.of_nat j) in *.
  assert (Hn53 : 0 <= n < 2 ^ 53).
  { change (2 ^ 53) with 9007199254740992. subst n. nia. }
  assert (Hn : 0 <= n < 2 ^ 1024 - 2 ^ 970).
  { split; [lia|]. apply below_double_limit.
    apply Z.lt_trans with (2 ^ 53); [lia|].
    apply Z.pow_lt_mono_r; lia. }
  assert (Hr : SizeSpec.unit_rank n = j).
  { destruct Hk1 as [Hk1 | ->].
    - apply unit_rank_multiple; lia.
    - subst n. change (1024 ^ Z.of_nat 0) with 1. rewrite Z.mul_1_r.
      unfold SizeSpec.unit_rank. change (1024 ^ 1) with 1024.
      destruct (Z.ltb_spec k 1024); [reflexivity|lia]. }
  destruct (scale_unit_rank Hn) as (size & unit & Hs & Hu & Hf).
  rewrite Hr in Hu, Hf. exists unit. split; [exact Hu|].
  unfold En.get_file_size_of, format_1f. rewrite Hs, Hf. cbn [option_map].
  rewrite (app_assoc (digits k)). do 2 f_equal.
  unfold fixed1, SizeSpec.scaled, tenths. cbn [mant expo].
  rewrite rn53_small by exact Hn53.
  destruct (Z.ltb_spec n 0); [lia|]. cbn [app].
  replace (2 ^ (10 * Z.of_nat j)) with (1024 ^ Z.of_nat j)
    by (change 1024 with (2 ^ 10); rewrite <- Z.pow_mul_r by lia; reflexivity).
  replace (10 * n) with (10 * k * 1024 ^ Z.of_nat j) by (subst n; ring).
  rewrite round_half_even_multiple by lia.
  rewrite Z.abs_eq by lia.
  replace (10 * k) with (k * 10) by ring.
  rewrite Z.div_mul, Z.mod_mul by lia. reflexivity.
Qed.

End WholeSizes.

Lemma get_file_size_of_whole_witness :
  exists unit,
    nth_error SizeSpec.all_units 2 = Some unit
    /\ En.get_file_size_of (5 * 1024 ^ 2) = Some (digits 5 ++ py ".0" ++ unit).
Proof. apply (@get_file_size_of_whole 5 2); lia. Defined.

(** ** Labels *)

(** X2.  Whatever the file name, the default script labels it with one of
    six strings, and the second script gives the same label with "64-bit"
    and "Unknown" put into its own language. *)
Theorem get_arch_info_labels (filename : str) :
  (exists label,
     In label Labels.all /\ En.get_arch_info filename = PyStr label)
  /\ Zh.get_arch_info filename = Labels.translate (En.get_arch_info filename).
Proof.
  unfold En.get_arch_info, En.arch_chain, Zh.get_arch_info, Zh.arch_chain.
  repeat match goal with
  | |- context [contains ?a ?b] => destruct (contains a b)
  end;
  (split; [eexists; split; [|reflexivity]; unfold Labels.all; cbn [In]; tauto
          |vm_compute; reflexivity]).
Qed.

(** ** Paths *)

Section Basename.

Lemma basename_from_plain (cur name : str) :
  (forall c, In c name -> c <> 47%N) ->
  basename_from cur name = rev cur ++ name.
Proof.
  revert cur. induction name as [|c name IH]; intros cur H.
  - cbn [basename_from]. now rewrite app_nil_r.
  - cbn [basename_from].
    destruct (N.eqb_spec c 47) as [Hc|Hc].
    + exfalso. apply (H c); [now left|exact Hc].
    + rewrite IH by (intros d Hd; apply H; now right).
      cbn [rev]. now rewrite <- app_assoc.
Qed.

Lemma basename_from_slash (cur dir name : str) :
  basename_from cur (dir ++ 47%N :: name) = basename_from [] name.
Proof.
  revert cur. induction dir as [|c dir IH]; intros cur.
  - reflexivity.
  - cbn [app basename_from]. destruct (c =? 47)%N; apply IH.
Qed.

(** X3.  The base name of a name without a slash is the name itself, and
    the base name of a directory path, a slash and such a name is that
    name. *)
Theorem basename_plain (name : str) :
  (forall c, In c name -> c <> 47%N) ->
  basename name = name
  /\ forall dir, basename (dir ++ py "/" ++ name) = name.
Proof.
  intros H. unfold basename. split.
  - now rewrite basename_from_plain.
  - intros dir. change (py "/" ++ name) with (47%N :: name).
    rewrite basename_from_slash. now rewrite basename_from_plain.
Qed.

End Basename.

Lemma basename_plain_witness :
  basename (py "amo_linux_amd64") = py "amo_linux_amd64"
  /\ basename (py "dist" ++ py "/" ++ py "amo_linux_amd64")
     = py "amo_linux_amd64".
Proof.
  destruct (@basename_plain (py "amo_linux_amd64")) as [H1 H2].
  - intros c Hc. vm_compute in Hc.
    repeat (destruct Hc as [<- | Hc]; [discriminate|]). destruct Hc.
  - split; [exact H1 | exact (H2 (py "dist"))].
Defined.

(** ** Which names a pattern selects *)

Section Fnmatch.

Import Pattern.

Lemma fnmatch_star (pat name : str) :
  fnmatch (42%N :: pat) name =
  fnmatch pat name ||
  match name with
  | [] => false
  | _ :: name' => fnmatch (42%N :: pat) name'
  end.
Proof. destruct name; reflexivity. Qed.

Lemma fnmatch_char (p : N) (pat name : str) :
  wild p = false ->
  fnmatch (p :: pat) name =
  match name with
  | [] => false
  | c :: name' => (p =? c)%N && fnmatch pat name'
  end.
Proof.
  unfold wild. intros H. apply orb_false_iff in H as [H1 H2].
  cbn [fnmatch]. rewrite H1. destruct name; [reflexivity|]. now rewrite H2.
Qed.

Lemma literal_cons (p : N) (pat : str) :
  literal (p :: pat) = true -> wild p = false /\ literal pat = true.
Proof.
  unfold literal. cbn [forallb]. intros H.
  apply andb_true_iff in H as [H1 H2]. split; [|exact H2].
  now destruct (wild p).
Qed.

Lemma fnmatch_literal (pat name : str) :
  literal pat = true -> (fnmatch pat name = true <-> name = pat).
Proof.
  revert name. induction pat as [|p pat IH]; intros name H.
  - destruct name; cbn [fnmatch]; split; intros E; congruence.
  - apply literal_cons in H as [Hp H]. rewrite (@fnmatch_char p _ _ Hp).
    destruct name as [|c name]; [split; intros E; discriminate|].
    rewrite andb_true_iff, N.eqb_eq, (IH name H).
    split; [intros [-> ->]; reflexivity|intros E; injection E; auto].
Qed.

Lemma fnmatch_prefix_star (pat name : str) :
  literal pat = true -> fnmatch (pat ++ [42%N]) name = startswith pat name.
Proof.
  revert name. induction pat as [|p pat IH]; intros name H.
  - cbn [app startswith]. induction name as [|c name IHn];
      rewrite fnmatch_star; [reflexivity|]. rewrite IHn. apply orb_true_r.
  - apply literal_cons in H as [Hp H]. cbn [app].
    rewrite (@fnmatch_char p _ _ Hp).
    destruct name as [|c name]; [reflexivity|]. cbn [startswith].
    now rewrite (IH name H).
Qed.

Lemma fnmatch_star_literal (pat name : str) :
  literal pat = true ->
  (fnmatch (42%N :: pat) name = true <-> exists m, name = m ++ pat).
Proof.
  intros H. induction name as [|c name IH]; rewrite fnmatch_star.
  - rewrite orb_false_r, (@fnmatch_literal pat [] H). split.
    + intros <-. now exists [].
    + intros [m E]. symmetry in E. apply app_eq_nil in E as [_ E].
      now subst.
  - rewrite orb_true_iff, (@fnmatch_literal pat (c :: name) H), IH. split.
    + intros [<- | [m ->]]; [now exists []|now exists (c :: m)].
    + intros [[|d m] E]; [left; exact E|].
      right. cbn [app] in E. injection E as -> ->. now exists m.
Qed.

Lemma fnmatch_prefix_star_suffix (pre suf name : str) :
  literal pre = true -> literal suf = true ->
  (fnmatch (pre ++ 42%N :: suf) name = true
   <-> exists m, name = pre ++ m ++ suf).
Proof.
  intros Hpre Hsuf. revert name.
  induction pre as [|p pre IH]; intros name.
  - cbn [app]. apply fnmatch_star_literal, Hsuf.
  - apply literal_cons in Hpre as [Hp Hpre]. cbn [app].
    rewrite (@fnmatch_char p _ _ Hp). destruct name as [|c name].
    + split; [discriminate|]. intros [m E]. discriminate E.
    + rewrite andb_true_iff, N.eqb_eq, (IH Hpre name). split.
      * intros [-> [m ->]]. now exists m.
      * intros [m E]. injection E as -> ->. split; [reflexivity|].
        now exists m.
Qed.

End Fnmatch.

Section Enumeration.

Import Pattern.

Variable w : world.

Lemma glob_In (pattern f : str) :
  In f (glob w pattern) <->
  In f (w_listing w)
  /\ (ishidden pattern = true \/ ishidden f = false)
  /\ fnmatch pattern f = true.
Proof.
  unfold glob. destruct (ishidden pattern); rewrite !filter_In.
  - intuition auto.
  - rewrite negb_true_iff. intuition auto; discriminate.
Qed.

Lemma listed_In (pattern f : str) :
  In f (Card.listed w pattern) <->
  In f (glob w pattern)
  /\ endswith (py ".sha256") f = false /\ isfile w f = true.
Proof.
  unfold Card.listed. rewrite filter_In, andb_true_iff, negb_true_iff.
  reflexivity.
Qed.

(** The files a pattern [prefix*] lists, for a literal prefix that does
    not begin with a dot. *)
Lemma listed_prefix (c : N) (pre f : str) :
  literal (c :: pre) = true -> c <> 46%N ->
  (In f (Card.listed w ((c :: pre) ++ [42%N])) <->
   In f (w_listing w)
   /\ startswith (c :: pre) f = true
   /\ endswith (py ".sha256") f = false
   /\ isfile w f = true).
Proof.
  intros Hlit Hc. rewrite listed_In, glob_In.
  rewrite (@fnmatch_prefix_star (c :: pre) f Hlit).
  assert (Hh : startswith (c :: pre) f = true -> ishidden f = false).
  { destruct f as [|d f]; [discriminate|]. rewrite startswith_cons.
    intros H. apply andb_true_iff in H as [H _]. apply N.eqb_eq in H as <-.
    unfold ishidden. change (py ".") with [46%N]. rewrite startswith_cons.
    destruct (N.eqb_spec 46 c); [congruence|reflexivity]. }
  intuition auto.
Qed.

(** X4.  The Linux section lists exactly the names of the current
    directory that start with [amo_linux_], do not end in [.sha256] and
    are regular files, and the macOS section those that start with
    [amo_darwin_]. *)
Theorem listed_linux_darwin (f : str) :
  (In f (Card.listed w (py "amo_linux_*")) <->
   In f (w_listing w)
   /\ startswith (py "amo_linux_") f = true
   /\ endswith (py ".sha256") f = false
   /\ isfile w f = true)
  /\ (In f (Card.listed w (py "amo_darwin_*")) <->
      In f (w_listing w)
      /\ startswith (py "amo_darwin_") f = true
      /\ endswith (py ".sha256") f = false
      /\ isfile w f = true).
Proof.
  split.
  - change (py "amo_linux_*") with ((97%N :: py "mo_linux_") ++ [42%N]).
    change (py "amo_linux_") with (97%N :: py "mo_linux_").
    apply listed_prefix; [vm_compute; reflexivity|discriminate].
  - change (py "amo_darwin_*") with ((97%N :: py "mo_darwin_") ++ [42%N]).
    change (py "amo_darwin_") with (97%N :: py "mo_darwin_").
    apply listed_prefix; [vm_compute; reflexivity|discriminate].
Qed.

Lemma exe_not_sha256 (pre m : str) :
  endswith (py ".sha256") (pre ++ m ++ py ".exe") = false.
Proof.
  unfold endswith. rewrite !rev_app_distr.
  change (rev (py ".exe")) with [101; 120; 101; 46]%N.
  change (rev (py ".sha256")) with [54; 53; 50; 97; 104; 115; 46]%N.
  reflexivity.
Qed.

(** X5.  The Windows section lists exactly the names of the current
    directory of the form [amo_windows_], any text, [.exe] that are
    regular files; none of them is a checksum file. *)
Theorem listed_windows (f : str) :
  In f (Card.listed w (py "amo_windows_*.exe")) <->
  In f (w_listing w)
  /\ (exists m, f = py "amo_windows_" ++ m ++ py ".exe")
  /\ isfile w f = true.
Proof.
  rewrite listed_In, glob_In.
  change (py "amo_windows_*.exe")
    with (py "amo_windows_" ++ 42%N :: py ".exe").
  rewrite (@fnmatch_prefix_star_suffix (py "amo_windows_") (py ".exe") f)
    by (vm_compute; reflexivity).
  split.
  - intros ((Hin & _ & Hm) & _ & Hf). auto.
  - intros (Hin & [m ->] & Hf).
    split; [split; [exact Hin|split; [right; reflexivity|now exists m]]|].
    split; [apply exe_not_sha256|exact Hf].
Qed.

(** X6.  The checksum section enumerates exactly the names of the
    current directory that end in [.sha256] and do not begin with a
    dot. *)
Theorem glob_sha256 (f : str) :
  In f (glob w (py "*.sha256")) <->
  In f (w_listing w)
  /\ ishidden f = false
  /\ exists m, f = m ++ py ".sha256".
Proof.
  rewrite glob_In. change (py "*.sha256") with (42%N :: py ".sha256").
  rewrite (@fnmatch_star_literal (py ".sha256") f)
    by (vm_compute; reflexivity).
  split.
  - intros (Hin & [H|H] & Hm); [discriminate H|auto].
  - intros (Hin & Hh & Hm). auto.
Qed.

End Enumeration.

Lemma listed_linux_darwin_witness :
  In (py "amo_linux_amd64")
     (Card.listed (Sample.world_of Sample.release_dir) (py "amo_linux_*")).
Proof.
  apply (proj1 (listed_linux_darwin (Sample.world_of Sample.release_dir)
                  (py "amo_linux_amd64"))).
  repeat split; vm_compute; auto.
Defined.

Lemma listed_windows_witness :
  ~ In (py "amo_windows_amd64.exe.sha256")
       (Card.listed (Sample.world_of Sample.release_dir)
          (py "amo_windows_*.exe")).
Proof.
  intros H.
  apply (listed_windows (Sample.world_of Sample.release_dir)) in H
    as (H & _).
  vm_compute in H. intuition discriminate.
Defined.

Lemma glob_sha256_witness :
  In (py "amo_linux_amd64.sha256")
     (glob (Sample.world_of Sample.release_dir) (py "*.sha256")).
Proof.
  apply (glob_sha256 (Sample.world_of Sample.release_dir)).
  repeat split; [vm_compute; auto|].
  exists (py "amo_linux_amd64"). reflexivity.
Defined.

(** ** What a platform section shows *)

Section SectionContent.

Variable w : world.

Lemma basename_id (name : str) :
  (forall c, In c name -> c <> 47%N) -> basename name = name.
Proof. intros H. unfold basename. now rewrite basename_from_plain. Qed.

Lemma contains_infix (sub pre rest : str) :
  contains sub (pre ++ sub ++ rest) = true.
Proof.
  induction pre as [|c pre IH].
  - destruct (sub ++ rest) eqn:E; cbn [app contains]; rewrite <- ?E;
      now rewrite startswith_app.
  - cbn [app contains]. rewrite IH. apply orb_true_r.
Qed.

(** X7.  A file of the Linux section whose name holds no slash is
    labelled "64-bit" when its name contains amd64, and "ARM64" when it
    contains arm64 and not amd64. *)
Theorem linux_section_labels (f : str) :
  In f (Card.listed w (py "amo_linux_*")) ->
  (forall c, In c f -> c <> 47%N) ->
  (contains (py "amd64") f = true ->
   En.get_arch_info (basename f) = PyStr (py "64-bit"))
  /\ (contains (py "amd64") f = false -> contains (py "arm64") f = true ->
      En.get_arch_info (basename f) = PyStr (py "ARM64")).
Proof.
  intros Hin Hplain.
  change (py "amo_linux_*") with ((97%N :: py "mo_linux_") ++ [42%N]) in Hin.
  apply listed_prefix in Hin as (_ & Hs & _);
    [|vm_compute; reflexivity|discriminate].
  apply startswith_inv in Hs as [r ->].
  assert (Hl : contains (py "linux")
                 ((97%N :: py "mo_linux_") ++ r) = true).
  { change ((97%N :: py "mo_linux_") ++ r)
      with (py "amo_" ++ py "linux" ++ (95%N :: r)).
    apply contains_infix. }
  rewrite basename_id by exact Hplain.
  unfold En.get_arch_info, En.arch_chain.
  split.
  - intros ->. now rewrite Hl.
  - intros -> ->. now rewrite Hl.
Qed.

Lemma card_open_nonempty (platform_name platform_icon : str) :
  En.card_open platform_name platform_icon <> [].
Proof.
  unfold En.card_open. intros H.
  apply (f_equal (@List.length N)) in H. rewrite !length_app in H.
  assert (E : List.length (py "                <div class=") = 27)
    by (vm_compute; reflexivity).
  rewrite E in H. cbn [List.length] in H. lia.
Qed.

(** X8.  The section of a platform is the empty string exactly when no
    file is listed for it. *)
Theorem platform_section_empty_iff
  (platform_name platform_icon file_pattern : str) :
  En.generate_platform_section w platform_name platform_icon file_pattern = []
  <-> Card.listed w file_pattern = [].
Proof.
  unfold En.generate_platform_section, Card.listed.
  destruct (filter _ (glob w file_pattern)) as [|f files];
    [split; reflexivity|].
  rewrite fold_left_append. split; [|discriminate].
  intros H. apply app_eq_nil in H as [H _]. apply app_eq_nil in H as [H _].
  now apply card_open_nonempty in H.
Qed.

(** X9.  A listed file has been found to be a regular file, so its size
    is known: when the size is a byte count in the range of a double, the
    caption shows the formatted size and not the sentinel. *)
Theorem listed_size_known (file_pattern f : str) :
  In f (Card.listed w file_pattern) ->
  exists st,
    w_stat w f = Some st /\ st_kind st = Regular
    /\ ((0 <= st_size st < 2 ^ 1023)%Z ->
        exists unit,
          nth_error SizeSpec.all_units (SizeSpec.unit_rank (st_size st))
          = Some unit
          /\ En.get_file_size w f
             = fixed1 (SizeSpec.scaled (st_size st)
                         (SizeSpec.unit_rank (st_size st))) ++ unit).
Proof.
  intros Hin. apply listed_In in Hin as (_ & _ & Hf).
  unfold isfile in Hf. unfold En.get_file_size, getsize.
  destruct (w_stat w f) as [[k sz]|]; [|discriminate].
  exists {| st_kind := k; st_size := sz |}. split; [reflexivity|].
  split; [destruct k; try discriminate; reflexivity|].
  cbn [option_map st_size]. intros Hsz.
  assert (Hsz' : (0 <= sz < 2 ^ 1024 - 2 ^ 970)%Z)
    by (split; [apply Hsz|apply below_double_limit, Hsz]).
  destruct (scale_unit_rank Hsz') as (size & unit & Hs & Hu & Hfl).
  exists unit. split; [exact Hu|].
  unfold En.get_file_size_of, format_1f. now rewrite Hs, Hfl.
Qed.

End SectionContent.

Lemma linux_section_labels_witness :
  En.get_arch_info (basename (py "amo_linux_amd64")) = PyStr (py "64-bit").
Proof.
  refine (proj1 (@linux_section_labels (Sample.world_of Sample.release_dir)
                   (py "amo_linux_amd64") _ _) _).
  - vm_compute. auto.
  - intros c Hc. vm_compute in Hc.
    repeat (destruct Hc as [<- | Hc]; [discriminate|]). destruct Hc.
  - vm_compute. reflexivity.
Defined.

Lemma platform_section_empty_iff_witness :
  En.generate_platform_section (Sample.world_of Sample.release_dir)
    (py "Windows") (py "🪟") (py "amo_windows_*.exe") = [].
Proof.
  apply (platform_section_empty_iff (Sample.world_of Sample.release_dir)).
  vm_compute. reflexivity.
Defined.

Lemma listed_size_known_witness :
  exists st,
    w_stat (Sample.world_of Sample.release_dir) (py "amo_linux_amd64")
    = Some st /\ st_kind st = Regular.
Proof.
  destruct (@listed_size_known (Sample.world_of Sample.release_dir)
              (py "amo_linux_*") (py "amo_linux_amd64")) as (st & H1 & H2 & _).
  - vm_compute. auto.
  - exists st. split; [exact H1 | exact H2].
Defined.

(** ** Checksum files with an ordinary name *)

Section Candidate.

Lemma sha256_chars : py ".sha256" = [46; 115; 104; 97; 50; 53; 54]%N.
Proof. vm_compute. reflexivity. Qed.

(** An occurrence of [.sha256] that starts in [b] and ends in a
    following [.sha256] lies in [b]. *)
Lemma startswith_sha256_border (b : str) :
  startswith (py ".sha256") (b ++ py ".sha256") = true ->
  b = [] \/ startswith (py ".sha256") b = true.
Proof.
  rewrite sha256_chars.
  destruct b as [|c1 [|c2 [|c3 [|c4 [|c5 [|c6 [|c7 b]]]]]]];
    [now left|..]; intros H; right; cbn [app] in H;
    rewrite ?startswith_cons in *; cbn [startswith] in *;
    repeat match type of H with
    | context [(?a =? ?c)%N] =>
      destruct (a =? c)%N; cbn [andb] in *; try discriminate H
    end; reflexivity.
Qed.

Lemma endswith_app (suf s : str) : endswith suf (s ++ suf) = true.
Proof. unfold endswith. rewrite rev_app_distr. apply startswith_app. Qed.

Lemma replace_sha256_suffix (base : str) :
  contains (py ".sha256") base = false ->
  replace (py ".sha256") [] (base ++ py ".sha256") = base.
Proof.
  intros H. induction base as [|c base IH].
  - cbn [app]. rewrite <- (app_nil_r (py ".sha256")).
    rewrite replace_here by (rewrite sha256_chars; discriminate).
    reflexivity.
  - apply contains_tail in H as [Hs Hc]. cbn [app].
    rewrite replace_next.
    + now rewrite (IH Hc).
    + destruct (startswith (py ".sha256") (c :: base ++ py ".sha256"))
        eqn:E; [|reflexivity].
      apply (startswith_sha256_border (c :: base)) in E as [E|E];
        [discriminate E|congruence].
Qed.

(** X10.  For a checksum file named after an artifact whose name does not
    contain [.sha256], the candidate artifact name the script computes is
    the name of the artifact, which is the checksum file name without its
    suffix. *)
Theorem checksum_candidate_plain (base : str) :
  contains (py ".sha256") base = false ->
  replace (py ".sha256") [] (base ++ py ".sha256") = base
  /\ Checksum.strip_suffix (py ".sha256") (base ++ py ".sha256") = base.
Proof.
  intros H. split; [exact (replace_sha256_suffix base H)|].
  unfold Checksum.strip_suffix. rewrite endswith_app, length_app.
  rewrite Nat.add_sub, firstn_app, Nat.sub_diag, firstn_all.
  cbn [firstn]. apply app_nil_r.
Qed.

End Candidate.

Lemma checksum_candidate_plain_witness :
  replace (py ".sha256") [] (py "amo_linux_amd64" ++ py ".sha256")
  = py "amo_linux_amd64".
Proof.
  refine (proj1 (@checksum_candidate_plain (py "amo_linux_amd64") _)).
  vm_compute. reflexivity.
Defined.

(** ** The hash that is read *)

Section Hash.

Import Checksum.

Lemma word_no_space (s : str) :
  forallb (fun c => negb (isspace c)) (word s) = true.
Proof.
  induction s as [|c s IH]; [reflexivity|]. cbn [word].
  destruct (isspace c) eqn:E; [reflexivity|].
  cbn [forallb]. now rewrite E, IH.
Qed.

(** X11.  A hash that is read from a checksum file is not empty and holds
    no whitespace, the file could be read, and the hash is the first
    token of its content. *)
Theorem read_checksum_token (w : world) (sha_file checksum : str) :
  En.read_checksum w sha_file = Some checksum ->
  checksum <> []
  /\ forallb (fun c => negb (isspace c)) checksum = true
  /\ exists text,
       w_read w LocaleDefault sha_file = inl text
       /\ first_token text = Some checksum.
Proof.
  rewrite read_checksum_first_token.
  destruct (w_read w LocaleDefault sha_file) as [text|e]; [|discriminate].
  intros H. assert (Hw : checksum = word (lstrip text)).
  { unfold first_token in H. destruct (word (lstrip text)); congruence. }
  split; [|split].
  - unfold first_token in H.
    destruct (word (lstrip text)); [discriminate|congruence].
  - rewrite Hw. apply word_no_space.
  - now exists text.
Qed.

End Hash.

Lemma read_checksum_token_witness :
  py "abcd1234" <> []
  /\ forallb (fun c => negb (isspace c)) (py "abcd1234") = true.
Proof.
  destruct (@read_checksum_token (Sample.world_of Sample.release_dir)
              (py "amo_linux_amd64.sha256") (py "abcd1234")) as (H1 & H2 & _).
  - vm_compute. reflexivity.
  - split; [exact H1 | exact H2].
Defined.

(** ** The copy of the installer scripts *)

Section CopyLoop.

Variable w : world.

Let present (l : list (str * str)) : list (str * str) :=
  map (Scripts.copy_of w) (filter (w_src_exists w) (map fst l)).

Lemma copy_scripts_cons (n d : str) (l : list (str * str)) :
  En.copy_scripts w ((n, d) :: l) =
  if w_src_exists w n then
    match w_copy2 w n with
    | None =>
      (Copy2 (w_src_path w n) n
       :: Print (py "✅ Copied " ++ n ++ py " (" ++ d ++ py ")")
       :: fst (En.copy_scripts w l), snd (En.copy_scripts w l))
    | Some e => ([], Raise e)
    end
  else
    (Print (py "⚠️ Warning: " ++ n ++ py " not found at " ++ w_src_path w n)
     :: fst (En.copy_scripts w l), snd (En.copy_scripts w l)).
Proof.
  cbn [En.copy_scripts]. destruct (w_src_exists w n).
  - unfold copy2. destruct (w_copy2 w n) as [e|].
    + now rewrite !bind_raise.
    + now rewrite !bind_assoc, !bind_event, !bind_print.
  - now rewrite bind_print.
Qed.


(** The loop in any run. *)
Lemma copy_scripts_any (l : list (str * str)) :
  (exists k, Trace.copied (fst (En.copy_scripts w l)) = firstn k (present l))
  /\ Scripts.made (fst (En.copy_scripts w l)) = []
  /\ (snd (En.copy_scripts w l) = Ret tt
      \/ exists name e,
           In name (map fst l) /\ w_src_exists w name = true
           /\ w_copy2 w name = Some e
           /\ snd (En.copy_scripts w l) = Raise e).
Proof.
  subst present. induction l as [|[n d] l ([k IH1] & IH2 & IH3)].
  - split; [now exists 0|]. split; [reflexivity|now left].
  - rewrite copy_scripts_cons. cbn [map fst filter].
    destruct (w_src_exists w n) eqn:E.
    + destruct (w_copy2 w n) as [e|] eqn:C.
      * split; [now exists 0|]. split; [reflexivity|].
        right. exists n, e. repeat split; auto. now left.
      * cbn [fst snd map].
        cbn [Trace.copied Scripts.made flat_map app].
        fold (Trace.copied (fst (En.copy_scripts w l))).
        fold (Scripts.made (fst (En.copy_scripts w l))).
        split; [exists (S k); cbn [firstn]; now rewrite IH1|].
        split; [exact IH2|].
        destruct IH3 as [IH3|(name & e & Hin & He & Hc & Hr)];
          [now left|].
        right. exists name, e. repeat split; auto. now right.
    + cbn [fst snd].
      cbn [Trace.copied Scripts.made flat_map app].
      fold (Trace.copied (fst (En.copy_scripts w l))).
      fold (Scripts.made (fst (En.copy_scripts w l))).
      split; [now exists k|]. split; [exact IH2|].
      destruct IH3 as [IH3|(name & e & Hin & He & Hc & Hr)]; [now left|].
      right. exists name, e. repeat split; auto. now right.
Qed.

Lemma script_names : map fst En.scripts = Scripts.names.
Proof. vm_compute. reflexivity. Qed.


(** X13.  In every run the copies the loop has made are the first ones,
    in order, of the copies of the scripts that are present; the loop
    makes no directory; and it ends either normally or with the
    exception of a copy that failed, which it does not catch. *)
Theorem copy_installation_scripts_prefix :
  (exists k,
     Trace.copied (fst (En.copy_installation_scripts w))
     = firstn k (map (Scripts.copy_of w)
                   (filter (w_src_exists w) Scripts.names)))
  /\ Scripts.made (fst (En.copy_installation_scripts w)) = []
  /\ (snd (En.copy_installation_scripts w) = Ret tt
      \/ exists name e,
           In name Scripts.names /\ w_src_exists w name = true
           /\ w_copy2 w name = Some e
           /\ snd (En.copy_installation_scripts w) = Raise e).
Proof.
  unfold En.copy_installation_scripts.
  destruct (copy_scripts_any En.scripts) as (H1 & H2 & H3).
  subst present. cbv beta in H1. rewrite script_names in H1, H3. auto.
Qed.

End CopyLoop.


(** ** What a run of a script touches *)

Section Footprint.

Variable w : world.


Lemma bind_trace (A : Type) (t : list event) (m : prog A) :
  bind (t, Ret tt) (fun _ => m) = (t ++ fst m, snd m).
Proof. unfold bind. now destruct m. Qed.






End Footprint.



(** ** Runs of the second script *)

Section ZhOutcomes.

Variable w : world.
Variables prog_name template_file tag_name release_name : str.

Let argv : list str := [prog_name; template_file; tag_name; release_name].
Let page : str -> str :=
  fun content => Generic.page Generic.zh w content tag_name release_name.

(** X16.  The second script, with an argument count other than three,
    prints its usage message and exits with code 1; with a template file
    that does not exist it prints an error message and exits with code
    1; any other failure to read the template leaves [main] as an
    exception.  When the template is read and the directory [zh] can
    neither be made nor is a directory, the exception of the creation
    leaves [main] and nothing is written.  When the directory is made or
    is there, the page is written and no copy fails, [main] returns, the
    exit code is 0 and the one file written is [zh/index.html]. *)
Theorem zh_main_outcomes :
  (forall args : list str,
     List.length args <> 4 ->
     Zh.main w args =
     ([Print (py "用法: generate-download-page-zh.py <模板文件> <标签名> <发布名>")],
      SysExit 1%Z))
  /\ (w_read w Utf8 template_file = inr FileNotFoundError ->
      Zh.main w argv =
      ([Print (py "错误: 模板文件 " ++ template_file ++ py " 未找到")],
       SysExit 1%Z))
  /\ (forall e,
        w_read w Utf8 template_file = inr e -> e <> FileNotFoundError ->
        Zh.main w argv = ([], Raise e))
  /\ (forall content e,
        w_read w Utf8 template_file = inl content ->
        w_mkdir w (py "zh") = Some e -> is_dir w (py "zh") = false ->
        Zh.main w argv = ([], Raise e))
  /\ (forall content,
        w_read w Utf8 template_file = inl content ->
        w_mkdir w (py "zh") = None \/ is_dir w (py "zh") = true ->
        w_write w Utf8 (py "zh/index.html") (page content) = Written ->
        (forall name, w_src_exists w name = true -> w_copy2 w name = None) ->
        snd (Zh.main w argv) = Ret tt
        /\ exit_code (snd (Zh.main w argv)) = 0%Z
        /\ Trace.written (fst (Zh.main w argv))
           = [(py "zh/index.html", page content)]).
Proof.
  subst argv page. split.
  { intros args Hlen. unfold Zh.main.
    destruct (Nat.eqb_spec (List.length args) 4); [contradiction|].
    cbn [negb]. now rewrite bind_print. }
  rewrite zh_main_args. split; [|split; [|split]].
  - now intros ->.
  - intros e -> He. destruct e; try contradiction; reflexivity.
  - intros content e -> Hm Hd. unfold mkdir_exist_ok. rewrite Hm, Hd.
    apply bind_raise.
  - intros content -> Hdir Hw Hc.
    change (py "zh" ++ py "/" ++ py "index.html") with (py "zh/index.html").
    destruct (copy_installation_scripts_alike w) as (_ & Hs & _ & Hwz).
    unfold En.copy_installation_scripts in Hs.
    rewrite (@copy_scripts_returns w _ Hc) in Hs.
    assert (Hm : exists t, mkdir_exist_ok w (py "zh") = (t, Ret tt)
                           /\ Trace.written t = []).
    { unfold mkdir_exist_ok. destruct Hdir as [-> | Hd].
      - now exists [MkDir (py "zh")].
      - rewrite Hd. destruct (w_mkdir w (py "zh"));
          [now exists []|now exists [MkDir (py "zh")]]. }
    destruct Hm as (t & -> & Ht). rewrite bind_trace.
    unfold write. rewrite Hw. rewrite bind_event, bind_print.
    cbn [fst snd]. unfold Trace.written. rewrite flat_map_app.
    fold (Trace.written t). rewrite Ht. cbn [flat_map app].
    fold (Trace.written (fst (Zh.copy_installation_scripts w))).
    rewrite Hwz, <- Hs. repeat split.
Qed.

End ZhOutcomes.

Lemma zh_main_outcomes_witness :
  exit_code (snd (Zh.main (Sample.world_of Sample.release_dir)
                    Sample.release_argv)) = 0%Z.
Proof.
  refine (proj1 (proj2 (proj2 (proj2 (proj2 (proj2
    (@zh_main_outcomes (Sample.world_of Sample.release_dir)
       (py "generate-download-page.py") (py "template.html") (py "v1.0")
       (py "First Release")))))
    (py "<h1>{{RELEASE_NAME}} {{TAG_NAME}}</h1>{{DOWNLOAD_SECTIONS}}{{CHECKSUMS}}")
    _ _ _ _))).
  - vm_compute. reflexivity.
  - left. vm_compute. reflexivity.
  - reflexivity.
  - intros name H. reflexivity.
Defined.

(** ** Sizes in the two locales *)

(** X17.  For every path the two scripts show the same size, the one the
    byte count of the file is formatted to, or each shows its own
    sentinel: the default script "Unknown" and the second script its
    translation, when the size cannot be had or formatted. *)
Theorem get_file_size_locales (w : world) (filepath : str) :
  (exists size s,
     getsize w filepath = Some size /\ En.get_file_size_of size = Some s
     /\ En.get_file_size w filepath = s /\ Zh.get_file_size w filepath = s)
  \/ (En.get_file_size w filepath = py "Unknown"
      /\ Zh.get_file_size w filepath = py "未知").
Proof.
  rewrite zh_get_file_size, en_get_file_size.
  unfold Generic.get_file_size.
  destruct (getsize w filepath) as [size|]; [|now right].
  destruct (En.get_file_size_of size) as [s|] eqn:E; [|now right].
  left. exists size, s. auto.
Qed.

(** ** Artifacts and their checksums *)

Section ArtifactChecksum.

Variable w : world.

Lemma contains_app_r (sub pre s : str) :
  contains sub s = true -> contains sub (pre ++ s) = true.
Proof.
  intros H. induction pre as [|c pre IH]; [exact H|].
  cbn [app contains]. rewrite IH. apply orb_true_r.
Qed.

Lemma contains_app_l (sub s rest : str) :
  contains sub s = true -> contains sub (s ++ rest) = true.
Proof.
  induction s as [|c s IH].
  - destruct sub; [intros _; now destruct rest|discriminate].
  - intros H. cbn [contains] in H. apply orb_true_iff in H as [H|H].
    + apply startswith_inv in H as [r E]. rewrite E, <- app_assoc.
      apply (contains_infix sub [] (r ++ rest)).
    + cbn [app contains]. rewrite (IH H). apply orb_true_r.
Qed.

(** X18.  An artifact that is a regular file and whose name does not
    contain [.sha256] gets a block in the checksum section when its
    checksum file is in the current directory, does not begin with a dot,
    can be read and holds a token: the block pairs the name of the
    artifact with that token. *)
Theorem artifact_has_checksum_block (name text checksum : str) :
  isfile w name = true ->
  contains (py ".sha256") name = false ->
  ishidden (name ++ py ".sha256") = false ->
  In (name ++ py ".sha256") (w_listing w) ->
  w_read w LocaleDefault (name ++ py ".sha256") = inl text ->
  Checksum.first_token text = Some checksum ->
  contains (En.checksum_item name checksum) (En.generate_checksums_section w)
  = true.
Proof.
  intros Hf Hc Hh Hin Hr Ht.
  assert (Hg : In (name ++ py ".sha256") (glob w (py "*.sha256"))).
  { apply glob_In. split; [exact Hin|]. split.
    - right. exact Hh.
    - change (py "*.sha256") with (42%N :: py ".sha256").
      apply fnmatch_star_literal; [vm_compute; reflexivity|].
      now exists name. }
  unfold En.generate_checksums_section.
  destruct (glob w (py "*.sha256")) as [|g l] eqn:E; [contradiction|].
  rewrite checksums_fold. cbn [app]. rewrite <- E in *. clear E g l.
  apply in_split in Hg as (l1 & l2 & ->).
  rewrite map_app, concat_app. cbn [map List.concat].
  apply contains_app_r, contains_app_l.
  unfold Checksum.entry. rewrite (replace_sha256_suffix name Hc), Hf, Hr, Ht.
  rewrite <- (app_nil_r (En.checksum_item name checksum)) at 2.
  apply (contains_infix (En.checksum_item name checksum) [] []).
Qed.

End ArtifactChecksum.

Lemma artifact_has_checksum_block_witness :
  contains (En.checksum_item (py "amo_linux_amd64") (py "abcd1234"))
    (En.generate_checksums_section (Sample.world_of Sample.release_dir))
  = true.
Proof.
  apply (@artifact_has_checksum_block (Sample.world_of Sample.release_dir)
           (py "amo_linux_amd64") (py "abcd1234 amo_linux_amd64")
           (py "abcd1234")).
  - vm_compute. reflexivity.
  - vm_compute. reflexivity.
  - vm_compute. reflexivity.
  - vm_compute. auto.
  - vm_compute. reflexivity.
  - vm_compute. reflexivity.
Defined.

(** ** Rendering as one substitution *)

Section Substitution.

Import Template Subst.

Lemma text_cons (x : seg) (l : list seg) :
  text (x :: l) = seg_text x ++ text l.
Proof. reflexivity. Qed.

Lemma ok_weaken (b : bool) (l : list seg) :
  ok b l = true -> ok false l = true.
Proof.
  revert b. induction l as [|[c|p|s] l IH]; intros b H; [reflexivity|..].
  - cbn [ok] in *. destruct (c =? 123)%N; [|exact H].
    apply andb_true_iff in H as [_ H]. exact H.
  - cbn [ok] in *. exact (IH _ H).
  - cbn [ok] in *. apply andb_true_iff in H as [Hs H]. rewrite Hs.
    destruct s; [exact (IH _ H)|exact H].
Qed.

(** After an opening brace that is a character of the template, no
    second opening brace and the rest of a token follow. *)
Lemma no_second_brace (l : list seg) (a : N) (v : str) :
  ok true l = true -> a <> 123%N ->
  startswith (123%N :: a :: v) (text l) = false.
Proof.
  intros H Ha. induction l as [|[c|p|s] l IH]; [reflexivity|..].
  - cbn [ok negb andb] in H. rewrite text_cons. cbn [seg_text app].
    rewrite startswith_cons.
    destruct (N.eqb_spec c 123) as [->|Hc]; [discriminate H|].
    destruct (N.eqb_spec 123 c); [congruence|reflexivity].
  - rewrite text_cons. cbn [seg_text].
    destruct (token_shape p) as (a' & v' & -> & _). cbn [app].
    rewrite !startswith_cons.
    destruct (N.eqb_spec a 123); [contradiction|].
    now rewrite andb_false_r.
  - cbn [ok] in H. apply andb_true_iff in H as [Hs H].
    rewrite text_cons. cbn [seg_text].
    destruct s as [|d s]; [exact (IH H)|].
    cbn [app]. rewrite startswith_cons.
    unfold nobrace in Hs. cbn [forallb] in Hs.
    apply andb_true_iff in Hs as [Hd _]. apply negb_true_iff in Hd.
    rewrite N.eqb_sym, Hd. reflexivity.
Qed.

Lemma replace_over_plain (p : placeholder) (v s rest : str) :
  nobrace s = true ->
  replace (token p) v (s ++ rest) = s ++ replace (token p) v rest.
Proof.
  intros H. induction s as [|c s IH]; [reflexivity|].
  unfold nobrace in H. cbn [forallb] in H.
  apply andb_true_iff in H as [Hc H]. apply negb_true_iff in Hc.
  cbn [app]. rewrite replace_next; [now rewrite (IH H)|].
  destruct (token_shape p) as (a & t & -> & _).
  rewrite startswith_cons, N.eqb_sym, Hc. reflexivity.
Qed.

(** One replacement on a content puts the text in the place of the
    tokens and changes nothing else. *)
Lemma replace_text (p : placeholder) (v : str) (b : bool) (l : list seg) :
  ok b l = true ->
  replace (token p) v (text l) = text (map (put p v) l).
Proof.
  revert b. induction l as [|[c|q|s] l IH]; intros b H; [reflexivity|..].
  - cbn [map put]. rewrite !text_cons. cbn [seg_text app].
    cbn [ok] in H. rewrite replace_next.
    + destruct (c =? 123)%N;
        [apply andb_true_iff in H as [_ H]|]; now rewrite (IH _ H).
    + destruct (token_shape p) as (a & t & -> & Ht).
      rewrite startswith_cons.
      destruct (N.eqb_spec 123 c) as [<-|]; [|reflexivity].
      cbn [N.eqb Pos.eqb andb] in *.
      apply andb_true_iff in H as [_ H].
      apply no_second_brace; [exact H|]. now inversion Ht.
  - cbn [map put ok] in *. rewrite !text_cons. cbn [seg_text].
    destruct (placeholder_eqb p q) eqn:E.
    + assert (p = q) as <- by (destruct p, q; try discriminate; reflexivity).
      rewrite replace_here by (destruct p; discriminate).
      cbn [seg_text]. now rewrite (IH _ H).
    + rewrite replace_over_token by exact E.
      cbn [seg_text]. now rewrite (IH _ H).
  - cbn [map put ok] in *. apply andb_true_iff in H as [Hs H].
    rewrite !text_cons. cbn [seg_text].
    rewrite replace_over_plain by exact Hs. now rewrite (IH _ H).
Qed.

Lemma ok_put (p : placeholder) (v : str) (b : bool) (l : list seg) :
  nobrace v = true -> ok b l = true -> ok b (map (put p v) l) = true.
Proof.
  intros Hv. revert b. induction l as [|[c|q|s] l IH]; intros b H;
    [reflexivity|..].
  - cbn [map put ok] in *. destruct (c =? 123)%N.
    + apply andb_true_iff in H as [Hb H]. rewrite Hb. exact (IH _ H).
    + exact (IH _ H).
  - cbn [map put ok] in *. destruct (placeholder_eqb p q).
    + cbn [ok]. rewrite Hv. cbn [andb].
      destruct v; [exact (IH _ H)|]. apply IH. exact (@ok_weaken b l H).
    + cbn [ok]. exact (IH _ H).
  - cbn [map put ok] in *. apply andb_true_iff in H as [Hs H]. rewrite Hs.
    exact (IH _ H).
Qed.

Lemma ok_embed (b : bool) (l : list piece) :
  contains [123; 123]%N (chars l) = false ->
  (b = true -> startswith [123%N] (chars l) = false) ->
  ok b (map embed l) = true.
Proof.
  revert b. induction l as [|[c|p] l IH]; intros b H Hb; [reflexivity|..].
  - cbn [chars flat_map app] in H, Hb. fold (chars l) in H, Hb.
    apply contains_tail in H as [Hs H]. cbn [map embed ok].
    rewrite startswith_cons in Hs.
    destruct (N.eqb_spec c 123) as [->|Hc].
    + cbn [N.eqb Pos.eqb andb] in Hs.
      destruct b.
      * specialize (Hb eq_refl). rewrite startswith_cons in Hb.
        discriminate Hb.
      * cbn [negb andb]. apply IH; [exact H|intros _; exact Hs].
    + apply IH; [exact H|discriminate].
  - cbn [chars flat_map app] in H, Hb. fold (chars l) in H, Hb.
    cbn [map embed ok]. apply IH; assumption.
Qed.

Lemma text_embed (l : list piece) : text (map embed l) = flat l.
Proof.
  induction l as [|[c|p] l IH]; [reflexivity|..];
    cbn [map embed]; rewrite text_cons, flat_cons, IH; reflexivity.
Qed.

Lemma text_put_all (a b c d : str) (l : list piece) :
  text (map (put Checksums d)
          (map (put DownloadSections c)
             (map (put ReleaseName b)
                (map (put TagName a) (map embed l)))))
  = flat_map (fun x => match x with
                       | Chr ch => [ch]
                       | Tok p => value_of a b c d p
                       end) l.
Proof.
  induction l as [|[ch|p] l IH]; [reflexivity|..].
  - cbn [map embed put flat_map]. rewrite text_cons, IH. reflexivity.
  - cbn [map embed flat_map].
    destruct p; cbn [put placeholder_eqb map]; rewrite text_cons, IH;
      reflexivity.
Qed.

(** X19.  When the template, with its placeholder tokens left out, holds
    no two opening braces in a row, and none of the four contents holds
    an opening brace, rendering is the substitution of all placeholders
    at once: every occurrence of a token of the template is replaced by
    its content, every other character is kept, and no content that has
    been put in is rewritten. *)
Theorem render_substitutes
  (template tag_name release_name download_sections checksums : str) :
  contains (py "{{") (delete_placeholders template) = false ->
  nobrace tag_name = true -> nobrace release_name = true ->
  nobrace download_sections = true -> nobrace checksums = true ->
  En.render template tag_name release_name download_sections checksums
  = substitute template tag_name release_name download_sections checksums.
Proof.
  intros H Ha Hb Hc Hd. rewrite render_tokens. unfold substitute.
  unfold delete_placeholders in H. set (l := tokenize template) in *.
  rewrite <- (flat_tokenize template). fold l. rewrite <- text_embed.
  assert (E : py "{{" = [123; 123]%N) by (vm_compute; reflexivity).
  rewrite E in H.
  assert (H0 : ok false (map embed l) = true)
    by (apply ok_embed; [exact H|discriminate]).
  rewrite (@replace_text TagName tag_name false _ H0).
  pose proof (@ok_put TagName tag_name false _ Ha H0) as H1.
  rewrite (@replace_text ReleaseName release_name false _ H1).
  pose proof (@ok_put ReleaseName release_name false _ Hb H1) as H2.
  rewrite (@replace_text DownloadSections download_sections false _ H2).
  pose proof (@ok_put DownloadSections download_sections false _ Hc H2)
    as H3.
  rewrite (@replace_text Checksums checksums false _ H3).
  apply text_put_all.
Qed.

End Substitution.

Lemma render_substitutes_witness :
  En.render
    (py "<h1>{{RELEASE_NAME}} {{TAG_NAME}}</h1><style>b { }</style>")
    (py "v1.0") (py "First") [] (py "<div>abcd</div>")
  = py "<h1>First v1.0</h1><style>b { }</style>".
Proof.
  refine (eq_trans
    (@render_substitutes
       (py "<h1>{{RELEASE_NAME}} {{TAG_NAME}}</h1><style>b { }</style>")
       (py "v1.0") (py "First") [] (py "<div>abcd</div>") _ _ _ _ _) _);
    vm_compute; reflexivity.
Defined.
